(** * PaperTimer: the exam timer of [src/App.tsx]

    A shallow embedding of the helpers and of the timer state machine of the
    [App] component, and the properties of the specification proved on it. *)

From Stdlib Require Import ZArith QArith Qround Lia Lqa String Ascii List DecimalString DecimalZ.
From Stdlib Require Floats Uint63.
From stdpp Require Import base list.
Import ListNotations.

Local Open Scope Z_scope.
Local Open Scope string_scope.

(** ** The fragment of JavaScript numbers the program uses

    A finite number is an exact rational and [NaN] is kept apart ([parseInt]
    produces it on the setup form).  Every operation below is exact: it is
    the engine's result wherever rounding to a double does not cross a whole
    number, as on the whole seconds, counters and time stamps the application
    computes with.  Where a helper is meant on every double it is embedded a
    second time in [Binary64], further down.  The infinities are left out:
    every division of the program has a positive literal or a guarded value as
    its divisor. *)
Module JS.

Inductive number : Type :=
| Num (q : Q)
| NaN.

Definition of_Z (z : Z) : number := Num (inject_Z z).

(** [Math.floor] and [Math.ceil]. *)
Definition floor (x : number) : number :=
  match x with
  | Num q => of_Z (Qfloor q)
  | NaN => NaN
  end.

Definition ceil (x : number) : number :=
  match x with
  | Num q => of_Z (Qceiling q)
  | NaN => NaN
  end.

(** [Math.max] and [Math.min]: [NaN] as soon as one argument is. *)
Definition max (x y : number) : number :=
  match x, y with
  | Num a, Num b => Num (if Qle_bool a b then b else a)
  | _, _ => NaN
  end.

Definition min (x y : number) : number :=
  match x, y with
  | Num a, Num b => Num (if Qle_bool a b then a else b)
  | _, _ => NaN
  end.

Definition sub (x y : number) : number :=
  match x, y with
  | Num a, Num b => Num (a - b)
  | _, _ => NaN
  end.

Definition mul (x y : number) : number :=
  match x, y with
  | Num a, Num b => Num (a * b)
  | _, _ => NaN
  end.

(** [x / y]; a zero divisor (which the program never has) gives [NaN]. *)
Definition div (x y : number) : number :=
  match x, y with
  | Num a, Num b => if Qeq_bool b 0 then NaN else Num (a / b)
  | _, _ => NaN
  end.

(** Rounding towards zero, as [%] uses it. *)
Definition trunc (q : Q) : Z :=
  if Qle_bool 0 q then Qfloor q else Qceiling q.

(** [x % y]: the remainder has the sign of the dividend. *)
Definition rem (x y : number) : number :=
  match x, y with
  | Num a, Num b =>
      if Qeq_bool b 0 then NaN else Num (a - b * inject_Z (trunc (a / b)))
  | _, _ => NaN
  end.

(** Comparisons: false as soon as one side is [NaN]. *)
Definition leb (x y : number) : bool :=
  match x, y with
  | Num a, Num b => Qle_bool a b
  | _, _ => false
  end.

Definition ltb (x y : number) : bool :=
  match x, y with
  | Num a, Num b => negb (Qle_bool b a)
  | _, _ => false
  end.

Definition gtb (x y : number) : bool := ltb y x.
Definition geb (x y : number) : bool := leb y x.

(** Truthiness, as [!n] and [x || y] test it: [0] and [NaN] are falsy. *)
Definition truthy (x : number) : bool :=
  match x with
  | Num q => negb (Qeq_bool q 0)
  | NaN => false
  end.

(** [Object.is] on numbers, the test React uses on dependency arrays. *)
Definition sameValue (x y : number) : bool :=
  match x, y with
  | Num a, Num b => Qeq_bool a b
  | NaN, NaN => true
  | _, _ => false
  end.

(** Decimal rendering of an integer, as a template literal prints it. *)
Definition string_of_Z (z : Z) : string := NilZero.string_of_int (Z.to_int z).

(** [`${x}`].  Only integers and [NaN] are ever printed by the program (the
    results of [Math.floor], [%], counters and indices); the decimal
    expansion of a fraction is not modelled. *)
Definition toString (x : number) : string :=
  match x with
  | Num q => string_of_Z (Qfloor q)
  | NaN => "NaN"
  end.

(** [ToLength], as [Array.from({ length: n })] applies it. *)
Definition toLength (x : number) : nat :=
  match x with
  | Num q => Z.to_nat (Qfloor q)
  | NaN => O
  end.

(** [a.join(sep)] on an array of strings. *)
Definition join (sep : string) (a : list string) : string := String.concat sep a.

(** [s.split(c)] for a separator of one character. *)
Fixpoint split (c : ascii) (s : string) : list string :=
  match s with
  | EmptyString => [EmptyString]
  | String a r =>
      if Ascii.eqb a c then EmptyString :: split c r
      else match split c r with
           | x :: xs => String a x :: xs
           | [] => [String a EmptyString]
           end
  end.

End JS.

Abbreviation number := JS.number.
Abbreviation Num := JS.Num.
Abbreviation NaN := JS.NaN.

(** ** Helpers *)

(** [pad]. *)
Definition pad (n : number) : string :=
  if JS.ltb n (JS.of_Z 10) then "0" ++ JS.toString n else JS.toString n.

(** [formatHMS], in exact arithmetic: the engine's text for seconds below
    2^53, where the division by 3600 does not round across a whole number and
    the hours are printed in full. *)
Definition formatHMS (seconds : number) : string :=
  let s := JS.max (JS.of_Z 0) (JS.floor seconds) in
  let h := JS.floor (JS.div s (JS.of_Z 3600)) in
  let m := JS.floor (JS.div (JS.rem s (JS.of_Z 3600)) (JS.of_Z 60)) in
  let sec := JS.rem s (JS.of_Z 60) in
  if JS.gtb h (JS.of_Z 0)
  then JS.toString h ++ ":" ++ pad m ++ ":" ++ pad sec
  else JS.toString m ++ ":" ++ pad sec.

Record Split : Type := { answering : number; checking : number }.

(** [splitAnsweringChecking], in exact arithmetic;
    [Binary64.splitAnsweringChecking] is the function on doubles. *)
Definition splitAnsweringChecking (totalSeconds : number) : Split :=
  let answering := JS.floor (JS.mul totalSeconds (Num 0.95)) in
  let checking := JS.sub totalSeconds answering in
  {| answering := answering; checking := checking |}.

(** [avgPerQuestionFromAnswering], in exact arithmetic;
    [Binary64.avgPerQuestionFromAnswering] is the function on doubles. *)
Definition avgPerQuestionFromAnswering (answeringSeconds numQuestions : number) : number :=
  JS.ceil (JS.div answeringSeconds (JS.max (JS.of_Z 1) numQuestions)).

(** [EOL]: [String.fromCharCode(10)]. *)
Definition EOL_char : ascii := ascii_of_nat 10.
Definition EOL : string := String EOL_char EmptyString.

(** [buildGreeting]: the empty name is the only falsy string. *)
Definition buildGreeting (name : string) : string :=
  "Good luck" ++ (if String.eqb name "" then "" else ", " ++ name) ++ "! Ace this exam!".

(** ** The state of [App] *)

Inductive Phase : Type := Setup | Countdown | Exam | Finished.

(** One field per [useState].  The form inputs are what [parseInt] gave (an
    integer or [NaN]); the timestamps are readings of [Date.now()], integers;
    the counters start at [0] and only ever grow by one. *)
Record State : Type := mkState {
  phase : Phase;
  numQuestions : number;
  totalMinutes : number;
  studentName : string;
  countdown : Z;
  activeQ : option Z;
  questionTotals : list Z;
  visited : list bool;
  examStartTs : option Z;
  examEndTs : option Z;
  lastTick : option Z
}.

Definition setPhase (v : Phase) (s : State) : State :=
  mkState v (numQuestions s) (totalMinutes s) (studentName s) (countdown s) (activeQ s)
          (questionTotals s) (visited s) (examStartTs s) (examEndTs s) (lastTick s).
Definition setNumQuestions (v : number) (s : State) : State :=
  mkState (phase s) v (totalMinutes s) (studentName s) (countdown s) (activeQ s)
          (questionTotals s) (visited s) (examStartTs s) (examEndTs s) (lastTick s).
Definition setTotalMinutes (v : number) (s : State) : State :=
  mkState (phase s) (numQuestions s) v (studentName s) (countdown s) (activeQ s)
          (questionTotals s) (visited s) (examStartTs s) (examEndTs s) (lastTick s).
Definition setStudentName (v : string) (s : State) : State :=
  mkState (phase s) (numQuestions s) (totalMinutes s) v (countdown s) (activeQ s)
          (questionTotals s) (visited s) (examStartTs s) (examEndTs s) (lastTick s).
Definition setCountdown (v : Z) (s : State) : State :=
  mkState (phase s) (numQuestions s) (totalMinutes s) (studentName s) v (activeQ s)
          (questionTotals s) (visited s) (examStartTs s) (examEndTs s) (lastTick s).
Definition setActiveQ (v : option Z) (s : State) : State :=
  mkState (phase s) (numQuestions s) (totalMinutes s) (studentName s) (countdown s) v
          (questionTotals s) (visited s) (examStartTs s) (examEndTs s) (lastTick s).
Definition setQuestionTotals (v : list Z) (s : State) : State :=
  mkState (phase s) (numQuestions s) (totalMinutes s) (studentName s) (countdown s) (activeQ s)
          v (visited s) (examStartTs s) (examEndTs s) (lastTick s).
Definition setVisited (v : list bool) (s : State) : State :=
  mkState (phase s) (numQuestions s) (totalMinutes s) (studentName s) (countdown s) (activeQ s)
          (questionTotals s) v (examStartTs s) (examEndTs s) (lastTick s).
Definition setExamStartTs (v : option Z) (s : State) : State :=
  mkState (phase s) (numQuestions s) (totalMinutes s) (studentName s) (countdown s) (activeQ s)
          (questionTotals s) (visited s) v (examEndTs s) (lastTick s).
Definition setExamEndTs (v : option Z) (s : State) : State :=
  mkState (phase s) (numQuestions s) (totalMinutes s) (studentName s) (countdown s) (activeQ s)
          (questionTotals s) (visited s) (examStartTs s) v (lastTick s).
Definition setLastTick (v : option Z) (s : State) : State :=
  mkState (phase s) (numQuestions s) (totalMinutes s) (studentName s) (countdown s) (activeQ s)
          (questionTotals s) (visited s) (examStartTs s) (examEndTs s) v.

(** [a[i]] for an integer index: [undefined] ([None]) out of range. *)
Definition index {A : Type} (a : list A) (i : Z) : option A :=
  if (i <? 0)%Z then None else a !! Z.to_nat i.

(** [a[i] = v] on a copy of [a].  A negative index sets a property that no
    element read sees; an index past the end grows the array, the holes
    reading as [undefined], which the only reader ([!visited[i]]) takes as
    [hole]. *)
Definition assign {A : Type} (hole : A) (a : list A) (i : Z) (v : A) : list A :=
  if (i <? 0)%Z then a
  else if (Z.to_nat i <? length a)%nat then <[Z.to_nat i := v]> a
  else a ++ replicate (Z.to_nat i - length a) hole ++ [v].

(** [Array.from({ length: n }, () => v)].  From a length of 2^32 on the
    engine throws instead of building the array; such lengths are outside the
    model. *)
Definition arrayFrom {A : Type} (n : number) (v : A) : list A :=
  replicate (JS.toLength n) v.

(** The state of the first render, and the arrays as the effect on
    [numQuestions] sets them. *)
Definition initialState : State :=
  mkState Setup (JS.of_Z 10) (JS.of_Z 90) "" 10 None [] [] None None None.

Definition initArrays (s : State) : State :=
  setVisited (arrayFrom (numQuestions s) false)
    (setQuestionTotals (arrayFrom (numQuestions s) 0) s).

Definition mounted : State := initArrays initialState.

(** ** Derived values of a render *)

Definition totalSeconds (s : State) : number := JS.mul (totalMinutes s) (JS.of_Z 60).
Definition answeringSeconds (s : State) : number :=
  answering (splitAnsweringChecking (totalSeconds s)).
Definition checkingSeconds (s : State) : number :=
  checking (splitAnsweringChecking (totalSeconds s)).

(** [!ts] and [ts || x] on a timestamp: [null] and [0] are falsy. *)
Definition truthyTs (ts : option Z) : option Z :=
  match ts with
  | Some t => if (t =? 0)%Z then None else Some t
  | None => None
  end.

(** [elapsedSeconds]; [now] is what [Date.now()] reads when the memo runs. *)
Definition elapsedSeconds (now : Z) (s : State) : number :=
  match truthyTs (examStartTs s) with
  | None => JS.of_Z 0
  | Some start =>
      let base := match phase s with
                  | Exam => now
                  | _ => match truthyTs (examEndTs s) with
                         | Some e => e
                         | None => now
                         end
                  end in
      JS.min (totalSeconds s)
             (JS.max (JS.of_Z 0)
                     (JS.floor (JS.div (JS.sub (JS.of_Z base) (JS.of_Z start)) (JS.of_Z 1000))))
  end.

Definition remainingSeconds (now : Z) (s : State) : number :=
  JS.max (JS.of_Z 0) (JS.sub (totalSeconds s) (elapsedSeconds now s)).
Definition inCheckingWindow (now : Z) (s : State) : bool :=
  JS.geb (elapsedSeconds now s) (answeringSeconds s).
Definition avgPerQuestion (s : State) : number :=
  avgPerQuestionFromAnswering (answeringSeconds s) (numQuestions s).

(** ** Event handlers *)

(** [onStart]: the alert it raises, if any, and the next state. *)
Definition onStart (s : State) : option string * State :=
  let n := numQuestions s in
  let m := totalMinutes s in
  if negb (JS.truthy n) || JS.ltb n (JS.of_Z 1)
  then (Some "Please enter a valid number of questions", s)
  else if negb (JS.truthy m) || JS.ltb m (JS.of_Z 1)
  then (Some "Please enter a valid total time (minutes)", s)
  else (None, setPhase Countdown (setCountdown 10 s)).

(** [switchToQuestion]. *)
Definition switchToQuestion (q : Z) (s : State) : State :=
  match phase s with
  | Exam => setVisited (assign false (visited s) (q - 1) true) (setActiveQ (Some q) s)
  | _ => s
  end.

(** [finishExam]; [now] is its reading of [Date.now()]. *)
Definition finishExam (now : Z) (s : State) : State :=
  match phase s with
  | Exam => setActiveQ None (setExamEndTs (Some now) (setPhase Finished s))
  | _ => s
  end.

(** [resetAll]. *)
Definition resetAll (s : State) : State :=
  setVisited (arrayFrom (numQuestions s) false)
    (setQuestionTotals (arrayFrom (numQuestions s) 0)
       (setLastTick None (setExamEndTs None (setExamStartTs None
          (setActiveQ None (setPhase Setup s)))))).

(** A cell of a CSV row, a string or a number, and its [join] rendering. *)
Inductive Cell : Type := CStr (s : string) | CNum (z : Z).

Definition cellToString (c : Cell) : string :=
  match c with
  | CStr s => s
  | CNum z => JS.toString (JS.of_Z z)
  end.

Definition csvRows (questionTotals : list Z) : list (list Cell) :=
  [CStr "question_no"; CStr "total_seconds"]
  :: imap (fun i sec => [CNum (Z.of_nat i + 1); CNum sec]) questionTotals.

Definition csvText (rows : list (list Cell)) : string :=
  JS.join EOL (map (fun r => JS.join "," (map cellToString r)) rows).

(** [exportCSV]: the file name and the text handed to [downloadText]. *)
Definition exportCSV (s : State) : string * string :=
  ("paper-timer-results.csv", csvText (csvRows (questionTotals s))).

(** ** Effects and timers *)

(** What running an effect body does: nothing, arm its timer, or set state. *)
Inductive EffectOutcome : Type :=
| Idle
| Armed
| Commit (next : State).

(** The countdown effect; [now] is read on the branch that starts the exam. *)
Definition countdownEffect (now : Z) (s : State) : EffectOutcome :=
  match phase s with
  | Countdown =>
      if (countdown s <=? 0)%Z
      then Commit (setPhase Exam (setLastTick (Some now) (setExamStartTs (Some now) s)))
      else Armed
  | _ => Idle
  end.

(** The callback of its one-second timeout. *)
Definition countdownTimeout (s : State) : State := setCountdown (countdown s - 1) s.

(** The exam effect arms the one-second interval. *)
Definition examEffect (s : State) : EffectOutcome :=
  match phase s with
  | Exam => Armed
  | _ => Idle
  end.

(** [activeQ === i + 1]. *)
Definition isActive (activeQ : option Z) (i : nat) : bool :=
  match activeQ with
  | Some q => (q =? Z.of_nat i + 1)%Z
  | None => false
  end.

(** The callback of the interval; [now] is its own reading of the clock and
    [endNow] the one [finishExam] takes.  [finishExam] tests the phase of the
    render the interval was armed in, which the two updates before it leave
    as it is. *)
Definition examTick (now endNow : Z) (s : State) : State :=
  let s1 := setLastTick (Some now)
              (setQuestionTotals
                 (imap (fun i sec => if isActive (activeQ s) i then (sec + 1)%Z else sec)
                       (questionTotals s)) s) in
  match examStartTs s with
  | Some start =>
      let elapsed := JS.floor (JS.div (JS.sub (JS.of_Z now) (JS.of_Z start)) (JS.of_Z 1000)) in
      if JS.geb elapsed (totalSeconds s) then finishExam endNow s1 else s1
  | None => s1
  end.

(** ** Screens *)

(** [warnLevel] of [ExamScreen], from its props. *)
Inductive Tone : Type := amber | orange.

(** [questionTotals[activeIdx] || 0]: [undefined] (and [0]) give [0]. *)
Definition activeSec (activeQ : option Z) (questionTotals : list Z) : number :=
  match activeQ with
  | Some q =>
      match index questionTotals (q - 1) with
      | Some sec => JS.of_Z sec
      | None => JS.of_Z 0
      end
  | None => JS.of_Z 0
  end.

Definition activeRatio (activeQ : option Z) (questionTotals : list Z) (avgPerQuestion : number) : number :=
  if JS.gtb avgPerQuestion (JS.of_Z 0)
  then JS.div (activeSec activeQ questionTotals) avgPerQuestion
  else JS.of_Z 0.

Definition warnLevel (activeQ : option Z) (questionTotals : list Z) (avgPerQuestion : number) : option Tone :=
  let ratio := activeRatio activeQ questionTotals avgPerQuestion in
  if JS.geb ratio (Num 2.8) then Some orange
  else if JS.geb ratio (JS.of_Z 2) then Some amber
  else None.

(** [answeringRemaining] and [checkingRemaining] of [ExamScreen]. *)
Definition answeringRemaining (answeringSeconds elapsedSeconds : number) : number :=
  JS.max (JS.of_Z 0) (JS.sub answeringSeconds elapsedSeconds).

Definition checkingRemaining (answeringSeconds checkingSeconds elapsedSeconds : number) : number :=
  JS.max (JS.of_Z 0)
    (JS.sub checkingSeconds (JS.max (JS.of_Z 0) (JS.sub elapsedSeconds answeringSeconds))).

(** [progress] of [ExamScreen], a percentage, in exact arithmetic (the
    engine rounds the quotient and the product). *)
Definition progress (elapsedSeconds totalSeconds : number) : number :=
  JS.min (JS.of_Z 100) (JS.mul (JS.div elapsedSeconds totalSeconds) (JS.of_Z 100)).

(** The width of the bar of [CountdownScreen], a percentage. *)
Definition countdownWidth (countdown : Z) : number :=
  JS.mul (JS.div (JS.sub (JS.of_Z 10) (JS.of_Z countdown)) (JS.of_Z 10)) (JS.of_Z 100).

(** [totalSpent] of [FinishedScreen]: [reduce((a, b) => a + b, 0)]. *)
Definition totalSpent (questionTotals : list Z) : Z :=
  fold_left (fun a b => (a + b)%Z) questionTotals 0%Z.
Arguments totalSpent : simpl never.

(** ** The machine: what can happen in a state *)

(** What [parseInt] returns on the value of a number input. *)
Definition parseIntResult (v : option Z) : number :=
  match v with
  | Some z => JS.of_Z z
  | None => NaN
  end.

Inductive Event : Type :=
| EvSetNumQuestions (v : option Z)
| EvSetTotalMinutes (v : option Z)
| EvSetStudentName (name : string)
| EvStart
| EvCountdownTimeout
| EvCountdownDone (now : Z)
| EvSwitch (q : Z)
| EvFinish (now : Z)
| EvExamTick (now endNow : Z)
| EvReset
| EvExport.

Definition isArmed (o : EffectOutcome) : bool :=
  match o with
  | Armed => true
  | _ => false
  end.

Definition isCommit (o : EffectOutcome) : bool :=
  match o with
  | Commit _ => true
  | _ => false
  end.

Definition phase_eqb (a b : Phase) : bool :=
  match a, b with
  | Setup, Setup | Countdown, Countdown | Exam, Exam | Finished, Finished => true
  | _, _ => false
  end.

(** An event can happen when the screen that carries its control is rendered
    (the setup form in [Setup], the tiles and the finish button in [Exam],
    the two buttons of the summary in [Finished]; a tile exists for each
    [q] from [1] to the length [Array.from] gives [numQuestions]) or when its
    timer is armed.  The clock is not read where [countdownEffect] arms. *)
Definition enabled (e : Event) (s : State) : bool :=
  match e with
  | EvSetNumQuestions _ | EvSetTotalMinutes _ | EvSetStudentName _ | EvStart =>
      phase_eqb (phase s) Setup
  | EvCountdownTimeout => isArmed (countdownEffect 0 s)
  | EvCountdownDone now => isCommit (countdownEffect now s)
  | EvSwitch q =>
      phase_eqb (phase s) Exam && (1 <=? q)%Z && (q <=? Z.of_nat (JS.toLength (numQuestions s)))%Z
  | EvFinish _ => phase_eqb (phase s) Exam
  | EvExamTick _ _ => isArmed (examEffect s)
  | EvReset | EvExport => phase_eqb (phase s) Finished
  end.

(** The state after an event.  The effect on [numQuestions] runs when the
    value changed. *)
Definition apply (e : Event) (s : State) : State :=
  match e with
  | EvSetNumQuestions v =>
      let s1 := setNumQuestions (parseIntResult v) s in
      if JS.sameValue (numQuestions s) (parseIntResult v) then s1 else initArrays s1
  | EvSetTotalMinutes v => setTotalMinutes (parseIntResult v) s
  | EvSetStudentName name => setStudentName name s
  | EvStart => snd (onStart s)
  | EvCountdownTimeout => countdownTimeout s
  | EvCountdownDone now =>
      match countdownEffect now s with
      | Commit s' => s'
      | _ => s
      end
  | EvSwitch q => switchToQuestion q s
  | EvFinish now => finishExam now s
  | EvExamTick now endNow => examTick now endNow s
  | EvReset => resetAll s
  | EvExport => s
  end.

Definition step (s : State) (e : Event) (s' : State) : Prop :=
  enabled e s = true /\ s' = apply e s.

Fixpoint run (es : list Event) (s : State) : option State :=
  match es with
  | [] => Some s
  | e :: es' => if enabled e s then run es' (apply e s) else None
  end.

Inductive reachable : State -> Prop :=
| reach_mounted : reachable mounted
| reach_step s e s' : reachable s -> step s e s' -> reachable s'.

(** The place of a phase on the line setup, countdown, exam, finished. *)
Definition rank (p : Phase) : Z :=
  match p with
  | Setup => 0
  | Countdown => 1
  | Exam => 2
  | Finished => 3
  end.

(** ** Vocabulary of the statements *)

(** A form input [onStart] accepts: a number that is at least [1]. *)
Definition validInput (x : number) : Prop :=
  match x with
  | Num q => (1 <= q)%Q
  | NaN => False
  end.

(** What holds of every state the machine reaches. *)
Record Inv (s : State) : Prop := mkInv {
  inv_numQuestions : exists v, numQuestions s = parseIntResult v;
  inv_totalMinutes : exists v, totalMinutes s = parseIntResult v;
  inv_totals_length : length (questionTotals s) = JS.toLength (numQuestions s);
  inv_visited_length : length (visited s) = JS.toLength (numQuestions s);
  inv_totals_nonneg : Forall (fun sec => (0 <= sec)%Z) (questionTotals s);
  inv_before_exam :
    phase s = Setup \/ phase s = Countdown ->
    examStartTs s = None /\ examEndTs s = None /\ activeQ s = None /\
    questionTotals s = arrayFrom (numQuestions s) 0%Z /\
    visited s = arrayFrom (numQuestions s) false;
  inv_countdown : phase s = Countdown -> (0 <= countdown s <= 10)%Z;
  inv_valid :
    phase s <> Setup -> validInput (numQuestions s) /\ validInput (totalMinutes s);
  inv_started :
    phase s = Exam \/ phase s = Finished -> exists start, examStartTs s = Some start;
  inv_ended : phase s = Finished -> exists e, examEndTs s = Some e;
  inv_active :
    forall q, activeQ s = Some q ->
      phase s = Exam /\ (1 <= q <= Z.of_nat (JS.toLength (numQuestions s)))%Z
}.

(** ** A sample session

    One question out of three is opened just after the exam starts and two
    ticks accrue on it. *)
Definition sampleEvents : list Event :=
  [EvSetNumQuestions (Some 3%Z); EvSetTotalMinutes (Some 1%Z); EvStart]
  ++ repeat EvCountdownTimeout 10
  ++ [EvCountdownDone 1000; EvSwitch 2; EvExamTick 2000 2000; EvExamTick 3000 3000].

Definition sampleExam : State :=
  mkState Exam (JS.of_Z 3) (JS.of_Z 1) "" 0 (Some 2%Z) [0; 2; 0]%Z [false; true; false]
          (Some 1000%Z) None (Some 3000%Z).

(** The setup form after [-1] was typed into the minutes field. *)
Definition negativeMinutes : State := apply (EvSetTotalMinutes (Some (-1)%Z)) mounted.

(** Whether a character occurs in a string. *)
Fixpoint hasChar (c : ascii) (s : string) : bool :=
  match s with
  | EmptyString => false
  | String a r => Ascii.eqb a c || hasChar c r
  end.

(** A data line of the CSV file, as the specification words it. *)
Definition csvLine (i : nat) (sec : Z) : string :=
  JS.string_of_Z (Z.of_nat i + 1) ++ "," ++ JS.string_of_Z sec.

(** Two digits for a number below ten, and the text of a whole number of
    seconds as hours (when there are any), minutes and seconds. *)
Definition twoDigits (z : Z) : string :=
  if (z <? 10)%Z then "0" ++ JS.string_of_Z z else JS.string_of_Z z.

Definition hmsText (s : Z) : string :=
  if (3600 <=? s)%Z
  then JS.string_of_Z (s / 3600) ++ ":" ++ twoDigits ((s mod 3600) / 60) ++ ":" ++ twoDigits (s mod 60)
  else JS.string_of_Z (s / 60) ++ ":" ++ twoDigits (s mod 60).

(** The number of exam ticks among some events. *)
Fixpoint ticks (es : list Event) : Z :=
  match es with
  | [] => 0
  | EvExamTick _ _ :: es' => 1 + ticks es'
  | _ :: es' => ticks es'
  end.

(** Reading the exported file back: a decimal number, a data row of two
    numbers, and the whole text under its header. *)
Definition parseDecimal (s : string) : option Z :=
  option_map Z.of_int (NilZero.int_of_string s).

Definition parseRow (line : string) : option (Z * Z) :=
  match JS.split "," line with
  | [a; b] =>
      match parseDecimal a, parseDecimal b with
      | Some x, Some y => Some (x, y)
      | _, _ => None
      end
  | _ => None
  end.

Fixpoint parseRows (lines : list string) : option (list (Z * Z)) :=
  match lines with
  | [] => Some []
  | line :: rest =>
      match parseRow line, parseRows rest with
      | Some r, Some rs => Some (r :: rs)
      | _, _ => None
      end
  end.

Definition parseCSV (text : string) : option (list (Z * Z)) :=
  match JS.split EOL_char text with
  | header :: lines =>
      if String.eqb header "question_no,total_seconds" then parseRows lines else None
  | [] => None
  end.

(** ** The same arithmetic on binary64

    The engine computes on IEEE 754 doubles.  The three places where the
    program leaves the integers are embedded a second time on the primitive
    doubles, to be compared with the exact model above. *)
Module Binary64.
Import PrimFloat.

(** The integer below a finite double, whose value is [m * 2^e] up to sign. *)
Definition floor (x : float) : option Z :=
  match FloatOps.Prim2SF x with
  | SpecFloat.S754_zero _ => Some 0%Z
  | SpecFloat.S754_finite sign m e =>
      let n := if sign then Z.neg m else Z.pos m in
      Some (if (0 <=? e)%Z then n * 2 ^ e else n / 2 ^ (- e))%Z
  | _ => None
  end.

(** [Math.ceil(x)] is [-Math.floor(-x)]. *)
Definition ceil (x : float) : option Z := option_map Z.opp (floor (opp x)).

(** The double of a whole number from 0 to 2^53, which it represents exactly. *)
Definition ofInt (z : Z) : float := of_uint63 (Uint63.of_Z z).

(** [Math.floor(totalSeconds * 0.95)]. *)
Definition answering (totalSeconds : Z) : option Z :=
  floor (ofInt totalSeconds * 0.95)%float.

(** [Math.ceil(answeringSeconds / Math.max(1, numQuestions))] for at least
    one question. *)
Definition avgPerQuestion (answeringSeconds numQuestions : Z) : option Z :=
  ceil (ofInt answeringSeconds / ofInt numQuestions)%float.

(** [warnLevel] from the seconds of the active question and a positive
    average. *)
Definition warnLevel (activeSec avgPerQuestion : Z) : option Tone :=
  let ratio := (ofInt activeSec / ofInt avgPerQuestion)%float in
  if (2.8 <=? ratio)%float then Some orange
  else if (2 <=? ratio)%float then Some amber
  else None.


(** The double of a whole number of either sign, exact up to 2^53. *)
Definition fromZ (z : Z) : float :=
  if (0 <=? z)%Z then ofInt z else opp (ofInt (- z)).

(** [Math.floor] and [Math.ceil] with their result as a double.  From 2^52 on
    every double is whole and is its own floor and ceiling; [NaN] and the
    infinities are returned as they are.  The sign of a zero result is not
    kept. *)
Definition floorF (x : float) : float :=
  if (abs x <? 4503599627370496)%float
  then match floor x with
       | Some k => fromZ k
       | None => x
       end
  else x.

Definition ceilF (x : float) : float :=
  if (abs x <? 4503599627370496)%float
  then match ceil x with
       | Some k => fromZ k
       | None => x
       end
  else x.

(** [Math.max]: [NaN] as soon as one argument is. *)
Definition max (x y : float) : float :=
  if (x <=? y)%float then y
  else if (y <=? x)%float then x
  else nan.

Record Split64 : Type := { answering64 : float; checking64 : float }.

(** [splitAnsweringChecking] on doubles. *)
Definition splitAnsweringChecking (totalSeconds : float) : Split64 :=
  let answering := floorF (totalSeconds * 0.95)%float in
  let checking := (totalSeconds - answering)%float in
  {| answering64 := answering; checking64 := checking |}.

(** [avgPerQuestionFromAnswering] on doubles. *)
Definition avgPerQuestionFromAnswering (answeringSeconds numQuestions : float) : float :=
  ceilF (answeringSeconds / max 1 numQuestions)%float.

(** Whether a double is the whole number [k]. *)
Definition isWhole (x : float) (k : Z) : bool :=
  match floor x, ceil x with
  | Some a, Some b => (a =? k)%Z && (b =? k)%Z
  | _, _ => false
  end.



End Binary64.

(** Whether a check holds of the [n] integers from [z] on. *)
Fixpoint holdsFrom (check : Z -> bool) (n : nat) (z : Z) : bool :=
  match n with
  | O => true
  | S n' => check z && holdsFrom check n' (z + 1)%Z
  end.

Definition eqTone (a b : option Tone) : bool :=
  match a, b with
  | None, None | Some amber, Some amber | Some orange, Some orange => true
  | _, _ => false
  end.

Definition agreeAnswering (t : Z) : bool :=
  match Binary64.answering t with
  | Some k => JS.sameValue (answering (splitAnsweringChecking (JS.of_Z t))) (JS.of_Z k)
  | None => false
  end.

Definition agreeAverage (a n : Z) : bool :=
  match Binary64.avgPerQuestion a n with
  | Some k => JS.sameValue (avgPerQuestionFromAnswering (JS.of_Z a) (JS.of_Z n)) (JS.of_Z k)
  | None => false
  end.

Definition agreeWarnLevel (sec avg : Z) : bool :=
  eqTone (Binary64.warnLevel sec avg) (warnLevel (Some 1%Z) [sec] (JS.of_Z avg)).

(** The split on doubles against the exact floor, on a whole total. *)
Definition agreeSplit (t : Z) : bool :=
  let r := Binary64.splitAnsweringChecking (Binary64.ofInt t) in
  let k := Qfloor (inject_Z t * 0.95) in
  Binary64.isWhole (Binary64.answering64 r) k
  && Binary64.isWhole (Binary64.checking64 r) (t - k).

(** * Properties *)

(** ** Numbers *)

Lemma Qle_bool_false (a b : Q) : (b < a)%Q -> Qle_bool a b = false.
Proof.
  intros H. destruct (Qle_bool a b) eqn:E; [|reflexivity].
  apply Qle_bool_iff in E. exfalso. exact (Qlt_not_le _ _ H E).
Qed.

Lemma Qle_bool_true (a b : Q) : (a <= b)%Q -> Qle_bool a b = true.
Proof. intros H. now apply Qle_bool_iff. Qed.

Lemma Qeq_bool_false (a b : Q) : ~ (a == b)%Q -> Qeq_bool a b = false.
Proof.
  intros H. destruct (Qeq_bool a b) eqn:E; [|reflexivity].
  apply Qeq_bool_iff in E. contradiction.
Qed.

Lemma Qfloor_neg (q : Q) : (q < 0)%Q -> (Qfloor q < 0)%Z.
Proof.
  intros H. rewrite Zlt_Qlt. apply Qle_lt_trans with q; [apply Qfloor_le | exact H].
Qed.

(** ** The helpers *)

(** C8: [formatHMS(0)] is "0:00", [formatHMS(3600)] is "1:00:00", and every
    negative number of seconds is clamped to zero and printed "0:00". *)
Theorem formatHMS_examples_and_clamp :
  formatHMS (JS.of_Z 0) = "0:00" /\
  formatHMS (JS.of_Z 3600) = "1:00:00" /\
  forall n : Q, (n < 0)%Q -> formatHMS (Num n) = "0:00".
Proof.
  split; [reflexivity|]. split; [reflexivity|].
  intros n Hn. unfold formatHMS. cbn [JS.floor JS.of_Z JS.max].
  rewrite Qle_bool_false.
  - reflexivity.
  - change 0%Q with (inject_Z 0). rewrite <- Zlt_Qlt. now apply Qfloor_neg.
Qed.

Lemma formatHMS_examples_and_clamp_witness :
  (-5 < 0)%Q /\ formatHMS (Num (-5)) = "0:00".
Proof.
  split; [reflexivity|].
  apply (proj2 (proj2 formatHMS_examples_and_clamp)). reflexivity.
Defined.

(** ** Input validation *)

Lemma input_check_valid (x : number) :
  negb (JS.truthy x) || JS.ltb x (JS.of_Z 1) = false <-> validInput x.
Proof.
  destruct x as [q|]; cbn [JS.truthy JS.ltb JS.of_Z validInput]; [|split; [discriminate | tauto]].
  change (inject_Z 1) with 1%Q. split.
  - intros H. apply orb_false_elim in H as [_ H].
    apply negb_false_iff in H. now apply Qle_bool_iff.
  - intros H. rewrite (Qle_bool_true _ _ H). rewrite Qeq_bool_false; [reflexivity|].
    intros E. rewrite E in H. apply H. reflexivity.
Qed.

Lemma input_check_invalid (x : number) :
  negb (JS.truthy x) || JS.ltb x (JS.of_Z 1) = true <-> ~ validInput x.
Proof.
  rewrite <- input_check_valid. destruct (negb (JS.truthy x) || JS.ltb x (JS.of_Z 1)); split; congruence.
Qed.

Lemma onStart_valid (s : State) :
  validInput (numQuestions s) -> validInput (totalMinutes s) ->
  onStart s = (None, setPhase Countdown (setCountdown 10 s)).
Proof.
  intros Hn Hm. unfold onStart.
  apply input_check_valid in Hn, Hm. now rewrite Hn, Hm.
Qed.

Lemma onStart_invalid (s : State) :
  ~ (validInput (numQuestions s) /\ validInput (totalMinutes s)) ->
  exists msg, onStart s = (Some msg, s).
Proof.
  intros H. unfold onStart.
  destruct (negb (JS.truthy (numQuestions s)) || JS.ltb (numQuestions s) (JS.of_Z 1)) eqn:En; [eauto|].
  destruct (negb (JS.truthy (totalMinutes s)) || JS.ltb (totalMinutes s) (JS.of_Z 1)) eqn:Em; [eauto|].
  exfalso. apply H. split; now apply input_check_valid.
Qed.

Lemma validInput_dec (x : number) : validInput x \/ ~ validInput x.
Proof.
  destruct (negb (JS.truthy x) || JS.ltb x (JS.of_Z 1)) eqn:E.
  - right. now apply input_check_invalid.
  - left. now apply input_check_valid.
Qed.

(** C4: from the setup phase [onStart] enters the countdown exactly when the
    number of questions and the number of minutes are both at least 1; on any
    other input (below 1, zero, or not a number) it raises an alert and leaves
    the whole state as it was. *)
Theorem onStart_validates (s : State) :
  phase s = Setup ->
  (phase (snd (onStart s)) = Countdown <->
   validInput (numQuestions s) /\ validInput (totalMinutes s)) /\
  (~ (validInput (numQuestions s) /\ validInput (totalMinutes s)) ->
   (exists msg, fst (onStart s) = Some msg) /\ snd (onStart s) = s) /\
  (validInput (numQuestions s) /\ validInput (totalMinutes s) ->
   fst (onStart s) = None) /\
  ~ validInput NaN /\ ~ validInput (JS.of_Z 0) /\
  (forall q : Q, (q < 1)%Q -> ~ validInput (Num q)).
Proof.
  intros Hp.
  assert (Hinv : ~ (validInput (numQuestions s) /\ validInput (totalMinutes s)) ->
                 (exists msg, fst (onStart s) = Some msg) /\ snd (onStart s) = s).
  { intros H. destruct (onStart_invalid s H) as [msg E]. rewrite E. eauto. }
  split; [split|split; [exact Hinv|split; [|split; [|split]]]].
  - intros Hc.
    destruct (validInput_dec (numQuestions s)) as [Hn|Hn];
      destruct (validInput_dec (totalMinutes s)) as [Hm|Hm]; try tauto;
      destruct Hinv as [_ E]; try tauto; rewrite E in Hc; congruence.
  - intros [Hn Hm]. now rewrite onStart_valid.
  - intros [Hn Hm]. now rewrite onStart_valid.
  - intros H. exact H.
  - intros H. apply H. reflexivity.
  - intros q H H'. simpl in H'. exact (Qlt_not_le _ _ H H').
Qed.

Lemma onStart_validates_witness :
  phase (snd (onStart mounted)) = Countdown /\
  (exists msg, fst (onStart (setTotalMinutes NaN mounted)) = Some msg) /\
  snd (onStart (setTotalMinutes NaN mounted)) = setTotalMinutes NaN mounted.
Proof.
  split.
  - apply (proj1 (onStart_validates mounted eq_refl)). split; discriminate.
  - apply (proj1 (proj2 (onStart_validates (setTotalMinutes NaN mounted) eq_refl))).
    intros [_ H]. exact H.
Defined.

(** ** The phase line *)

Lemma phase_eqb_eq (a b : Phase) : phase_eqb a b = true <-> a = b.
Proof. destruct a, b; simpl; split; congruence. Qed.

Lemma phase_onStart (s : State) :
  phase (snd (onStart s)) = phase s \/ phase (snd (onStart s)) = Countdown.
Proof.
  unfold onStart.
  destruct (negb (JS.truthy (numQuestions s)) || JS.ltb (numQuestions s) (JS.of_Z 1)); [now left|].
  destruct (negb (JS.truthy (totalMinutes s)) || JS.ltb (totalMinutes s) (JS.of_Z 1)); [now left|].
  now right.
Qed.

Lemma phase_examTick (now endNow : Z) (s : State) :
  phase s = Exam ->
  phase (examTick now endNow s) = Exam \/ phase (examTick now endNow s) = Finished.
Proof.
  intros Hp. unfold examTick, finishExam.
  destruct (examStartTs s); cbn; [|now left].
  destruct (JS.geb _ _); cbn; [|now left]. rewrite Hp. now right.
Qed.

Lemma phase_apply (e : Event) (s : State) :
  enabled e s = true ->
  (e = EvReset /\ phase (apply e s) = Setup) \/
  (rank (phase s) <= rank (phase (apply e s)))%Z.
Proof.
  intros Hen. destruct e; cbn [enabled apply] in *;
    try (apply andb_prop in Hen as [Hen _]; apply andb_prop in Hen as [Hen _]);
    try apply phase_eqb_eq in Hen.
  - right. destruct (JS.sameValue _ _); cbn; lia.
  - right. cbn. lia.
  - right. cbn. lia.
  - right. destruct (phase_onStart s) as [E|E]; rewrite E, ?Hen; cbn; lia.
  - right. cbn. lia.
  - right. unfold countdownEffect in *. destruct (phase s); try discriminate.
    destruct (countdown s <=? 0)%Z; cbn; [lia|discriminate].
  - right. unfold switchToQuestion. rewrite Hen. cbn. rewrite Hen. cbn. lia.
  - right. unfold finishExam. rewrite Hen. cbn. lia.
  - right. assert (Hp : phase s = Exam).
    { unfold examEffect in Hen. destruct (phase s); try discriminate. reflexivity. }
    destruct (phase_examTick now endNow s Hp) as [E|E]; rewrite E, Hp; cbn; lia.
  - left. split; reflexivity.
  - right. lia.
Qed.

(** C2: no step moves the phase backwards on the line setup, countdown, exam,
    finished, except [resetAll]; [finishExam] and [switchToQuestion] change
    nothing outside the exam phase; only [resetAll] leaves the finished phase,
    and it goes to setup with every counter at 0, every visited flag false,
    no active question and no exam timestamp. *)
Theorem phase_one_way :
  (forall s e s', step s e s' ->
     (e = EvReset /\ phase s' = Setup) \/ (rank (phase s) <= rank (phase s'))%Z) /\
  (forall now s, phase s <> Exam -> finishExam now s = s) /\
  (forall q s, phase s <> Exam -> switchToQuestion q s = s) /\
  (forall s e s', step s e s' -> phase s = Finished -> phase s' <> Finished -> e = EvReset) /\
  (forall s,
     phase (resetAll s) = Setup /\
     length (questionTotals (resetAll s)) = JS.toLength (numQuestions s) /\
     length (visited (resetAll s)) = JS.toLength (numQuestions s) /\
     (forall i sec, questionTotals (resetAll s) !! i = Some sec -> sec = 0%Z) /\
     (forall i b, visited (resetAll s) !! i = Some b -> b = false) /\
     activeQ (resetAll s) = None /\
     examStartTs (resetAll s) = None /\
     examEndTs (resetAll s) = None /\
     numQuestions (resetAll s) = numQuestions s).
Proof.
  split; [|split; [|split; [|split]]].
  - intros s e s' [Hen ->]. now apply phase_apply.
  - intros now s Hp. unfold finishExam. destruct (phase s); congruence.
  - intros q s Hp. unfold switchToQuestion. destruct (phase s); congruence.
  - intros s e s' [Hen ->] Hp Hp'.
    destruct e; cbn [enabled apply] in *; try reflexivity; exfalso;
      try (apply andb_prop in Hen as [Hen _]; apply andb_prop in Hen as [Hen _]);
      try (apply phase_eqb_eq in Hen; congruence).
    + unfold countdownEffect in Hen. rewrite Hp in Hen. discriminate.
    + unfold countdownEffect in Hen. rewrite Hp in Hen. discriminate.
    + unfold examEffect in Hen. rewrite Hp in Hen. discriminate.
  - intros s. cbn. unfold arrayFrom. rewrite !length_replicate.
    repeat split.
    + intros i sec H. apply lookup_replicate in H. tauto.
    + intros i b H. apply lookup_replicate in H. tauto.
Qed.

Lemma phase_one_way_witness :
  (EvStart = EvReset /\ phase (apply EvStart mounted) = Setup) \/
  (rank (phase mounted) <= rank (phase (apply EvStart mounted)))%Z.
Proof.
  apply (proj1 phase_one_way mounted EvStart (apply EvStart mounted)).
  split; reflexivity.
Defined.

(** ** The countdown *)

Lemma iter_countdownTimeout (k : nat) (s : State) :
  Nat.iter k countdownTimeout s = setCountdown (countdown s - Z.of_nat k) s.
Proof.
  induction k as [|k IH].
  - destruct s. cbn. now rewrite Z.sub_0_r.
  - rewrite Nat.iter_succ, IH. unfold countdownTimeout, setCountdown. cbn. f_equal. lia.
Qed.

Lemma run_app (es1 es2 : list Event) (s : State) :
  run (es1 ++ es2) s = match run es1 s with
                       | Some s' => run es2 s'
                       | None => None
                       end.
Proof.
  revert s. induction es1 as [|e es1 IH]; intros s; cbn; [reflexivity|].
  destruct (enabled e s); [apply IH | reflexivity].
Qed.

Lemma run_timeouts (k : nat) (s : State) :
  phase s = Countdown -> (Z.of_nat k <= countdown s)%Z ->
  run (repeat EvCountdownTimeout k) s = Some (setCountdown (countdown s - Z.of_nat k) s).
Proof.
  revert s. induction k as [|k IH]; intros s Hp Hk.
  - destruct s. cbn. now rewrite Z.sub_0_r.
  - cbn [repeat run enabled]. unfold countdownEffect. rewrite Hp.
    destruct (countdown s <=? 0)%Z eqn:E; [apply Z.leb_le in E; lia|].
    cbn [isArmed apply]. rewrite IH; [|exact Hp|cbn; lia].
    unfold countdownTimeout, setCountdown. cbn. do 2 f_equal. lia.
Qed.

(** C3: with valid inputs [onStart] enters the countdown with the counter at
    10; each tick of the countdown takes one off the counter; the timer stays
    armed for the first ten ticks, and once the counter is 0 the effect starts
    the exam and stamps its start with the current time. *)
Theorem countdown_ten_ticks (s : State) (now : Z) :
  phase s = Setup -> validInput (numQuestions s) -> validInput (totalMinutes s) ->
  phase (snd (onStart s)) = Countdown /\
  countdown (snd (onStart s)) = 10%Z /\
  (forall s1, countdown (countdownTimeout s1) = (countdown s1 - 1)%Z /\
              phase (countdownTimeout s1) = phase s1) /\
  (forall k, (k < 10)%nat ->
     phase (Nat.iter k countdownTimeout (snd (onStart s))) = Countdown /\
     countdown (Nat.iter k countdownTimeout (snd (onStart s))) = (10 - Z.of_nat k)%Z /\
     countdownEffect now (Nat.iter k countdownTimeout (snd (onStart s))) = Armed) /\
  countdown (Nat.iter 10 countdownTimeout (snd (onStart s))) = 0%Z /\
  (exists s', countdownEffect now (Nat.iter 10 countdownTimeout (snd (onStart s))) = Commit s' /\
              phase s' = Exam /\ examStartTs s' = Some now) /\
  (exists s', run (EvStart :: repeat EvCountdownTimeout 10 ++ [EvCountdownDone now]) s = Some s' /\
              phase s' = Exam /\ examStartTs s' = Some now).
Proof.
  intros Hp Hn Hm. rewrite (onStart_valid s Hn Hm). cbn [snd].
  split; [reflexivity|]. split; [reflexivity|]. split; [intros s1; split; reflexivity|].
  split; [|split; [|split]].
  - intros k Hk. rewrite iter_countdownTimeout. unfold countdownEffect. cbn.
    split; [reflexivity|]. split; [reflexivity|].
    destruct (10 - Z.of_nat k <=? 0)%Z eqn:E; [|reflexivity].
    apply Z.leb_le in E. lia.
  - rewrite iter_countdownTimeout. reflexivity.
  - rewrite iter_countdownTimeout. unfold countdownEffect. cbn. eexists. split; [reflexivity|].
    split; reflexivity.
  - cbn [run app enabled apply]. rewrite Hp. cbn [phase_eqb].
    rewrite (onStart_valid s Hn Hm). cbn [snd]. rewrite run_app, run_timeouts.
    + cbn. eexists. split; [reflexivity|]. split; reflexivity.
    + reflexivity.
    + cbn. lia.
Qed.

Lemma countdown_ten_ticks_witness :
  exists s', run (EvStart :: repeat EvCountdownTimeout 10 ++ [EvCountdownDone 1000]) mounted = Some s' /\
             phase s' = Exam /\ examStartTs s' = Some 1000%Z.
Proof.
  apply (countdown_ten_ticks mounted 1000 eq_refl); discriminate.
Defined.

(** ** What every reachable state satisfies *)

Lemma toLength_sameValue (x y : number) :
  JS.sameValue x y = true -> JS.toLength x = JS.toLength y.
Proof.
  destruct x as [a|], y as [b|]; cbn; try discriminate; [|reflexivity].
  intros H. apply Qeq_bool_iff in H. now rewrite (Qfloor_comp _ _ H).
Qed.

Lemma length_assign_in_range {A : Type} (hole : A) (a : list A) (i : Z) (v : A) :
  (0 <= i < Z.of_nat (length a))%Z -> length (assign hole a i v) = length a.
Proof.
  intros H. unfold assign.
  destruct (i <? 0)%Z eqn:E; [apply Z.ltb_lt in E; lia|].
  destruct (Z.to_nat i <? length a)%nat eqn:E'; [apply length_insert|].
  apply Nat.ltb_ge in E'. lia.
Qed.

Lemma Forall_nonneg_tick (activeQ : option Z) (l : list Z) :
  Forall (fun sec => (0 <= sec)%Z) l ->
  Forall (fun sec => (0 <= sec)%Z)
         (imap (fun i sec => if isActive activeQ i then (sec + 1)%Z else sec) l).
Proof.
  intros H. apply Forall_forall. intros x Hx.
  apply elem_of_lookup_imap in Hx as (i & y & -> & Hy).
  assert (0 <= y)%Z.
  { rewrite Forall_forall in H. apply H. apply list_elem_of_lookup. eauto. }
  destruct (isActive activeQ i); lia.
Qed.

Lemma Inv_mounted : Inv mounted.
Proof.
  constructor; cbn; try (intros; (discriminate || tauto || lia)).
  - now exists (Some 10%Z).
  - now exists (Some 90%Z).
  - apply Forall_replicate. lia.
  - intros [H|H]; discriminate H.
Qed.

Ltac inv_easy :=
  cbn; unfold arrayFrom in *;
  try solve [ eauto | congruence | lia | apply length_replicate
            | apply Forall_replicate; lia | intros [?|?]; congruence
            | intros; congruence | tauto
            | intros; match goal with
                      | H : _ -> validInput _ /\ validInput _ |- _ => apply H; congruence
                      end
            | let H := fresh in
              intros H; match goal with
                        | H' : _ -> exists _, _ |- _ => destruct (H' H) as [? ?]; congruence
                        end ].

Lemma Inv_setNumQuestions (v : option Z) (s : State) :
  phase s = Setup -> Inv s -> Inv (apply (EvSetNumQuestions v) s).
Proof.
  intros Hp [Hn Hm Hlt Hlv Hnn Hb Hc Hv Hs He Ha]. cbn [apply].
  destruct (Hb (or_introl Hp)) as (Hb1 & Hb2 & Hb3 & Hb4 & Hb5).
  destruct (JS.sameValue (numQuestions s) (parseIntResult v)) eqn:E.
  - apply toLength_sameValue in E. constructor; inv_easy.
    intros _. rewrite <- E. tauto.
  - constructor; inv_easy.
Qed.

Lemma Inv_onStart (s : State) : phase s = Setup -> Inv s -> Inv (snd (onStart s)).
Proof.
  intros Hp HI.
  destruct (validInput_dec (numQuestions s)) as [Hn|Hn];
    [destruct (validInput_dec (totalMinutes s)) as [Hm|Hm]|].
  - rewrite (onStart_valid s Hn Hm). cbn [snd].
    destruct HI as [Hn' Hm' Hlt Hlv Hnn Hb Hc Hv Hs He Ha].
    destruct (Hb (or_introl Hp)) as (Hb1 & Hb2 & Hb3 & Hb4 & Hb5).
    constructor; inv_easy.
  - destruct (onStart_invalid s) as [msg E]; [tauto|]. now rewrite E.
  - destruct (onStart_invalid s) as [msg E]; [tauto|]. now rewrite E.
Qed.

Lemma Inv_examTick (now endNow : Z) (s : State) :
  phase s = Exam -> Inv s -> Inv (examTick now endNow s).
Proof.
  intros Hp [Hn Hm Hlt Hlv Hnn Hb Hc Hv Hs He Ha].
  pose proof (Forall_nonneg_tick (activeQ s) _ Hnn) as Hnn'.
  unfold examTick, finishExam.
  destruct (examStartTs s) as [start|] eqn:Es; [destruct (JS.geb _ _)|]; cbn; rewrite ?Hp;
    constructor; cbn; rewrite ?length_imap; inv_easy.
Qed.

Lemma Inv_step (s s' : State) (e : Event) : Inv s -> step s e s' -> Inv s'.
Proof.
  intros HI [Hen ->]. destruct e; cbn [enabled] in Hen.
  - apply Inv_setNumQuestions; [now apply phase_eqb_eq | exact HI].
  - apply phase_eqb_eq in Hen. destruct HI as [Hn Hm Hlt Hlv Hnn Hb Hc Hv Hs He Ha].
    constructor; inv_easy.
  - destruct HI as [Hn Hm Hlt Hlv Hnn Hb Hc Hv Hs He Ha]. constructor; inv_easy.
  - apply Inv_onStart; [now apply phase_eqb_eq | exact HI].
  - unfold countdownEffect in Hen. destruct (phase s) eqn:Hp; try discriminate.
    destruct (countdown s <=? 0)%Z eqn:E; [discriminate|]. apply Z.leb_gt in E.
    destruct HI as [Hn Hm Hlt Hlv Hnn Hb Hc Hv Hs He Ha].
    specialize (Hc Hp).
    destruct (Hb (or_intror Hp)) as (Hb1 & Hb2 & Hb3 & Hb4 & Hb5).
    constructor; cbn; rewrite ?Hp; inv_easy.
  - cbn [apply]. unfold countdownEffect in *. destruct (phase s) eqn:Hp; try discriminate.
    destruct (countdown s <=? 0)%Z eqn:E; [|discriminate].
    destruct HI as [Hn Hm Hlt Hlv Hnn Hb Hc Hv Hs He Ha].
    destruct (Hb (or_intror Hp)) as (Hb1 & Hb2 & Hb3 & Hb4 & Hb5).
    constructor; inv_easy.
  - apply andb_prop in Hen as [Hen Hq2]. apply andb_prop in Hen as [Hen Hq1].
    apply phase_eqb_eq in Hen. apply Z.leb_le in Hq1, Hq2.
    cbn [apply]. unfold switchToQuestion. rewrite Hen.
    destruct HI as [Hn Hm Hlt Hlv Hnn Hb Hc Hv Hs He Ha].
    constructor; inv_easy.
    + rewrite length_assign_in_range; [exact Hlv|lia].
    + intros q' [= <-]. split; [exact Hen | lia].
  - apply phase_eqb_eq in Hen. cbn [apply]. unfold finishExam. rewrite Hen.
    destruct HI as [Hn Hm Hlt Hlv Hnn Hb Hc Hv Hs He Ha].
    constructor; inv_easy.
  - apply Inv_examTick; [|exact HI].
    unfold examEffect in Hen. now destruct (phase s).
  - apply phase_eqb_eq in Hen.
    destruct HI as [Hn Hm Hlt Hlv Hnn Hb Hc Hv Hs He Ha].
    constructor; inv_easy.
  - exact HI.
Qed.

Lemma reachable_Inv (s : State) : reachable s -> Inv s.
Proof.
  induction 1 as [|s e s' _ IH Hstep]; [apply Inv_mounted | exact (Inv_step _ _ _ IH Hstep)].
Qed.

Lemma run_reachable (es : list Event) (s s' : State) :
  reachable s -> run es s = Some s' -> reachable s'.
Proof.
  revert s. induction es as [|e es IH]; intros s Hr; cbn.
  - now intros [= <-].
  - destruct (enabled e s) eqn:E; [|discriminate].
    apply IH. apply (reach_step s e); [exact Hr | now split].
Qed.

(** ** The exam tick *)

Lemma elapsed_floor (now start : Z) :
  JS.floor (JS.div (JS.sub (JS.of_Z now) (JS.of_Z start)) (JS.of_Z 1000))
  = JS.of_Z ((now - start) / 1000).
Proof.
  unfold JS.floor, JS.div, JS.sub, JS.of_Z.
  change (Qeq_bool (inject_Z 1000) 0) with false. cbv iota.
  do 2 f_equal. rewrite Zdiv_Qdiv. apply Qfloor_comp.
  unfold Z.sub. now rewrite inject_Z_plus, inject_Z_opp.
Qed.

Lemma questionTotals_examTick (now endNow : Z) (s : State) :
  questionTotals (examTick now endNow s)
  = imap (fun i sec => if isActive (activeQ s) i then (sec + 1)%Z else sec) (questionTotals s).
Proof.
  unfold examTick, finishExam.
  destruct (examStartTs s); [destruct (JS.geb _ _)|]; cbn; try reflexivity.
  destruct (phase s); reflexivity.
Qed.

Lemma reachable_exam_started (s : State) :
  reachable s -> phase s = Exam -> exists start, examStartTs s = Some start.
Proof. intros Hr Hp. apply (inv_started s (reachable_Inv s Hr)). now left. Qed.

(** C1: in the exam phase one tick adds exactly one to the counter of the
    active question and leaves every other counter as it was; with no active
    question no counter changes; and when the elapsed time recomputed by the
    tick, floor((now - examStartTs) / 1000), has reached [totalSeconds], the
    tick moves the phase to finished.  (The start stamp the tick reads is set
    in every exam state the machine reaches.) *)
Theorem examTick_accrual (s : State) (now endNow : Z) :
  phase s = Exam ->
  length (questionTotals (examTick now endNow s)) = length (questionTotals s) /\
  (forall q i sec, activeQ s = Some q -> questionTotals s !! i = Some sec ->
     questionTotals (examTick now endNow s) !! i
     = Some (if decide (Z.of_nat i + 1 = q)%Z then sec + 1 else sec)%Z) /\
  (activeQ s = None -> questionTotals (examTick now endNow s) = questionTotals s) /\
  (forall start total, examStartTs s = Some start -> totalSeconds s = Num total ->
     (total <= inject_Z ((now - start) / 1000))%Q ->
     phase (examTick now endNow s) = Finished) /\
  (reachable s -> exists start, examStartTs s = Some start).
Proof.
  intros Hp. rewrite questionTotals_examTick.
  split; [apply length_imap|]. split; [|split; [|split]].
  - intros q i sec Hq Hi. rewrite list_lookup_imap, Hi, Hq. cbn. f_equal.
    destruct (decide (Z.of_nat i + 1 = q)%Z) as [E|E].
    + subst q. now rewrite Z.eqb_refl.
    + destruct (q =? Z.of_nat i + 1)%Z eqn:E'; [|reflexivity].
      apply Z.eqb_eq in E'. congruence.
  - intros Hq. rewrite Hq. cbn.
    induction (questionTotals s) as [|x l IH] using rev_ind; [reflexivity|].
    rewrite imap_app. cbn. now rewrite IH.
  - intros start total Hs Ht Hle. unfold examTick. rewrite Hs, elapsed_floor, Ht.
    cbn [JS.geb JS.leb JS.of_Z]. rewrite (Qle_bool_true _ _ Hle).
    unfold finishExam. cbn. now rewrite Hp.
  - intros Hr. now apply reachable_exam_started.
Qed.

Lemma sampleExam_run : run sampleEvents mounted = Some sampleExam.
Proof. vm_compute. reflexivity. Qed.

Lemma sampleExam_reachable : reachable sampleExam.
Proof. exact (run_reachable _ _ _ reach_mounted sampleExam_run). Qed.

Lemma examTick_accrual_witness :
  questionTotals (examTick 61000 61001 sampleExam) !! 1%nat = Some 3%Z /\
  phase (examTick 61000 61001 sampleExam) = Finished.
Proof.
  destruct (examTick_accrual sampleExam 61000 61001 eq_refl) as (_ & H2 & _ & H4 & _).
  split.
  - exact (H2 2%Z 1%nat 2%Z eq_refl eq_refl).
  - apply (H4 1000%Z 60%Q eq_refl eq_refl). apply Qle_bool_iff. reflexivity.
Defined.

(** ** The warning level *)

Lemma answering_lower_bound (m : Q) :
  (1 <= m)%Q -> (57 <= Qfloor (m * inject_Z 60 * 0.95))%Z.
Proof.
  intros Hm. rewrite <- (Qfloor_Z 57). apply Qfloor_resp_le.
  change (inject_Z 57) with 57%Q. change (inject_Z 60) with 60%Q. lra.
Qed.

Lemma Qceiling_pos (x : Q) : (0 < x)%Q -> (1 <= Qceiling x)%Z.
Proof.
  intros Hx. assert (0 < Qceiling x)%Z; [|lia].
  rewrite Zlt_Qlt. apply Qlt_le_trans with x; [exact Hx | apply Qle_ceiling].
Qed.

Lemma avgPerQuestion_pos (s : State) :
  validInput (numQuestions s) -> validInput (totalMinutes s) ->
  exists avg : Z, avgPerQuestion s = JS.of_Z avg /\ (1 <= avg)%Z.
Proof.
  unfold avgPerQuestion, answeringSeconds, totalSeconds.
  destruct (numQuestions s) as [n|], (totalMinutes s) as [m|]; cbn [validInput]; try tauto.
  intros Hn Hm. pose proof (answering_lower_bound m Hm) as HA.
  unfold avgPerQuestionFromAnswering, splitAnsweringChecking.
  cbn [JS.mul JS.of_Z JS.floor answering JS.max JS.div JS.ceil].
  change (inject_Z 1) with 1%Q. rewrite (Qle_bool_true _ _ Hn).
  assert (Hpos : (0 < n)%Q) by lra.
  assert (Hz : Qeq_bool n 0 = false).
  { apply Qeq_bool_false. intros E. rewrite E in Hpos. discriminate. }
  eexists. rewrite Hz. split; [reflexivity|]. apply Qceiling_pos.
  apply Qlt_shift_div_l; [exact Hpos|]. rewrite Qmult_0_l.
  change 0%Q with (inject_Z 0). rewrite <- Zlt_Qlt. lia.
Qed.

Lemma warnLevel_of_ratio (aq : option Z) (totals : list Z) (avg sec : Z) :
  (0 < avg)%Z -> activeSec aq totals = JS.of_Z sec ->
  warnLevel aq totals (JS.of_Z avg)
  = if Qle_bool 2.8 (inject_Z sec / inject_Z avg) then Some orange
    else if Qle_bool 2 (inject_Z sec / inject_Z avg) then Some amber
    else None.
Proof.
  intros Havg Hsec. unfold warnLevel, activeRatio. rewrite Hsec.
  assert (Hq : (0 < inject_Z avg)%Q) by (change 0%Q with (inject_Z 0); now rewrite <- Zlt_Qlt).
  cbn [JS.gtb JS.ltb JS.of_Z]. change (inject_Z 0) with 0%Q.
  rewrite (Qle_bool_false _ _ Hq). cbn [negb]. unfold JS.div, JS.of_Z.
  rewrite Qeq_bool_false by (intros E; rewrite E in Hq; discriminate).
  reflexivity.
Qed.

Lemma activeSec_lookup (q sec : Z) (totals : list Z) :
  (1 <= q)%Z -> totals !! Z.to_nat (q - 1) = Some sec ->
  activeSec (Some q) totals = JS.of_Z sec.
Proof.
  intros Hq Hl. unfold activeSec, index.
  destruct (q - 1 <? 0)%Z eqn:E; [apply Z.ltb_lt in E; lia|]. now rewrite Hl.
Qed.

(** C7: in a state with an active question the warning level follows the
    ratio of the seconds accumulated on that question to the average per
    question: orange (high) from 2.8 up, amber (medium) from 2.0 up to 2.8,
    none below 2.0. *)
Theorem warnLevel_thresholds (s : State) (q : Z) :
  reachable s -> activeQ s = Some q ->
  exists sec avg : Z,
    questionTotals s !! Z.to_nat (q - 1) = Some sec /\
    avgPerQuestion s = JS.of_Z avg /\ (0 < avg)%Z /\
    ((2.8 <= inject_Z sec / inject_Z avg)%Q ->
     warnLevel (activeQ s) (questionTotals s) (avgPerQuestion s) = Some orange) /\
    ((2 <= inject_Z sec / inject_Z avg)%Q /\ (inject_Z sec / inject_Z avg < 2.8)%Q ->
     warnLevel (activeQ s) (questionTotals s) (avgPerQuestion s) = Some amber) /\
    ((inject_Z sec / inject_Z avg < 2)%Q ->
     warnLevel (activeQ s) (questionTotals s) (avgPerQuestion s) = None).
Proof.
  intros Hr Hq. pose proof (reachable_Inv s Hr) as HI.
  destruct (inv_active s HI q Hq) as [Hp Hrange].
  destruct (inv_valid s HI) as [Hn Hm]; [congruence|].
  destruct (avgPerQuestion_pos s Hn Hm) as (avg & Havg & Hpos).
  destruct (lookup_lt_is_Some_2 (questionTotals s) (Z.to_nat (q - 1))) as [sec Hsec].
  { rewrite (inv_totals_length s HI). lia. }
  exists sec, avg. split; [exact Hsec|]. split; [exact Havg|]. split; [lia|].
  rewrite Hq, Havg.
  rewrite (warnLevel_of_ratio (Some q) _ avg sec) by (lia || (apply activeSec_lookup; [lia|exact Hsec])).
  split; [|split].
  - intros H. now rewrite (Qle_bool_true _ _ H).
  - intros [H2 H28]. now rewrite (Qle_bool_false _ _ H28), (Qle_bool_true _ _ H2).
  - intros H2. rewrite (Qle_bool_false _ _ H2). rewrite Qle_bool_false; [reflexivity|].
    apply Qlt_trans with 2%Q; [exact H2 | reflexivity].
Qed.

Lemma warnLevel_thresholds_witness :
  exists sec avg : Z,
    questionTotals sampleExam !! 1%nat = Some sec /\
    avgPerQuestion sampleExam = JS.of_Z avg /\ (0 < avg)%Z /\
    ((2.8 <= inject_Z sec / inject_Z avg)%Q ->
     warnLevel (Some 2%Z) [0; 2; 0]%Z (avgPerQuestion sampleExam) = Some orange) /\
    ((2 <= inject_Z sec / inject_Z avg)%Q /\ (inject_Z sec / inject_Z avg < 2.8)%Q ->
     warnLevel (Some 2%Z) [0; 2; 0]%Z (avgPerQuestion sampleExam) = Some amber) /\
    ((inject_Z sec / inject_Z avg < 2)%Q ->
     warnLevel (Some 2%Z) [0; 2; 0]%Z (avgPerQuestion sampleExam) = None).
Proof.
  apply (warnLevel_thresholds sampleExam 2%Z).
  - exact sampleExam_reachable.
  - reflexivity.
Defined.

(** ** Elapsed and remaining time *)

Lemma Qle_bool_cases (a b : Q) :
  (Qle_bool a b = true /\ (a <= b)%Q) \/ (Qle_bool a b = false /\ (b < a)%Q).
Proof.
  destruct (Qle_bool a b) eqn:E.
  - left. split; [reflexivity | now apply Qle_bool_iff].
  - right. split; [reflexivity|]. apply Qnot_le_lt. intros H.
    apply Qle_bool_iff in H. congruence.
Qed.

Lemma elapsedSeconds_cases (now : Z) (s : State) :
  elapsedSeconds now s = JS.of_Z 0 \/
  exists f : Z, elapsedSeconds now s = JS.min (totalSeconds s) (JS.max (JS.of_Z 0) (JS.of_Z f)).
Proof.
  unfold elapsedSeconds. destruct (truthyTs (examStartTs s)) as [start|]; [right|now left].
  rewrite elapsed_floor. eauto.
Qed.

Lemma reachable_not_started (s : State) (now : Z) :
  reachable s -> phase s = Setup \/ phase s = Countdown -> elapsedSeconds now s = JS.of_Z 0.
Proof.
  intros Hr Hp. destruct (inv_before_exam s (reachable_Inv s Hr) Hp) as (Hs & _).
  unfold elapsedSeconds. now rewrite Hs.
Qed.

Lemma reachable_total_valid (s : State) :
  reachable s -> phase s <> Setup -> exists t : Q, totalSeconds s = Num t /\ (60 <= t)%Q.
Proof.
  intros Hr Hp. destruct (inv_valid s (reachable_Inv s Hr) Hp) as [_ Hm].
  unfold totalSeconds. destruct (totalMinutes s) as [m|]; cbn in *; [|tauto].
  eexists. split; [reflexivity|]. change (inject_Z 60) with 60%Q. lra.
Qed.

(** C10, as the code has it: the state reached by typing [-1] into the
    minutes field shows 0 elapsed seconds over a total of -60, so the elapsed
    time is not within [0, totalSeconds] in every reachable state. *)
Lemma elapsedSeconds_above_negative_total :
  reachable negativeMinutes /\
  elapsedSeconds 0 negativeMinutes = JS.of_Z 0 /\
  totalSeconds negativeMinutes = Num (-60) /\
  JS.leb (elapsedSeconds 0 negativeMinutes) (totalSeconds negativeMinutes) = false /\
  ~ (forall s now, reachable s -> JS.leb (elapsedSeconds now s) (totalSeconds s) = true).
Proof.
  assert (Hr : reachable negativeMinutes).
  { apply (reach_step mounted (EvSetTotalMinutes (Some (-1)%Z))); [apply reach_mounted|].
    split; reflexivity. }
  split; [exact Hr|]. repeat split.
  intros H. specialize (H negativeMinutes 0%Z Hr). discriminate H.
Qed.

(** C10, amended: whenever [totalSeconds] is a non-negative number, which it
    is in every reachable state outside the setup phase, the elapsed seconds
    lie between 0 and [totalSeconds] whatever the clock reads, and the
    remaining seconds are [totalSeconds] minus the elapsed ones and are not
    negative; in every reachable state the elapsed seconds are 0 before the
    exam starts. *)
Theorem elapsedSeconds_clamped (s : State) (now : Z) :
  (forall t : Q, totalSeconds s = Num t -> (0 <= t)%Q ->
     exists e : Q,
       elapsedSeconds now s = Num e /\ (0 <= e)%Q /\ (e <= t)%Q /\
       remainingSeconds now s = Num (t - e) /\ (0 <= t - e)%Q) /\
  (reachable s -> phase s <> Setup ->
     exists t : Q, totalSeconds s = Num t /\ (60 <= t)%Q) /\
  (reachable s -> phase s = Setup \/ phase s = Countdown ->
     elapsedSeconds now s = JS.of_Z 0).
Proof.
  split; [|split; [apply reachable_total_valid | intros; now apply reachable_not_started]].
  intros t Ht Hpos. unfold remainingSeconds. rewrite Ht.
  assert (Hfin : forall e : Q, (0 <= e)%Q -> (e <= t)%Q ->
            JS.max (JS.of_Z 0) (JS.sub (Num t) (Num e)) = Num (t - e) /\ (0 <= t - e)%Q).
  { intros e He1 He2. assert (0 <= t - e)%Q by lra. split; [|assumption].
    cbn [JS.sub JS.max JS.of_Z]. change (inject_Z 0) with 0%Q.
    now rewrite (Qle_bool_true _ _ H). }
  destruct (elapsedSeconds_cases now s) as [E|[f E]]; rewrite E.
  - exists 0%Q. split; [reflexivity|]. split; [lra|]. split; [exact Hpos|].
    apply Hfin; lra.
  - rewrite Ht. cbn [JS.of_Z JS.max JS.min]. change (inject_Z 0) with 0%Q.
    destruct (Qle_bool_cases 0 (inject_Z f)) as [[-> H1]|[-> H1]];
      match goal with |- context [Qle_bool t ?m] =>
        destruct (Qle_bool_cases t m) as [[-> H2]|[-> H2]] end;
      eexists; (split; [reflexivity|]); (split; [lra|]); (split; [lra|]); apply Hfin; lra.
Qed.

Lemma elapsedSeconds_clamped_witness :
  (exists e : Q,
     elapsedSeconds 999000 sampleExam = Num e /\ (0 <= e)%Q /\ (e <= 60)%Q /\
     remainingSeconds 999000 sampleExam = Num (60 - e) /\ (0 <= 60 - e)%Q) /\
  (exists t : Q, totalSeconds sampleExam = Num t /\ (60 <= t)%Q) /\
  elapsedSeconds 999000 mounted = JS.of_Z 0.
Proof.
  pose proof (elapsedSeconds_clamped sampleExam 999000) as (H1 & H2 & _).
  pose proof (elapsedSeconds_clamped mounted 999000) as (_ & _ & H3).
  split; [|split].
  - apply (H1 60%Q eq_refl). discriminate.
  - apply H2.
    + exact sampleExam_reachable.
    + intros H. discriminate H.
  - apply H3; [apply reach_mounted | left; reflexivity].
Defined.

(** ** The CSV export *)

Lemma hasChar_app (c : ascii) (a b : string) :
  hasChar c (a ++ b) = hasChar c a || hasChar c b.
Proof. induction a as [|x a IH]; cbn; [reflexivity|]. now rewrite IH, orb_assoc. Qed.

Lemma split_none (c : ascii) (s : string) : hasChar c s = false -> JS.split c s = [s].
Proof.
  induction s as [|a r IH]; cbn; [reflexivity|].
  intros H. apply orb_false_elim in H as [Ha Hr]. now rewrite Ha, (IH Hr).
Qed.

Lemma split_app (c : ascii) (x r : string) :
  hasChar c x = false -> JS.split c (x ++ String c r) = x :: JS.split c r.
Proof.
  induction x as [|a x IH]; cbn.
  - intros _. now rewrite Ascii.eqb_refl.
  - intros H. apply orb_false_elim in H as [Ha Hx]. now rewrite Ha, (IH Hx).
Qed.

Lemma split_join (c : ascii) (x : string) (lines : list string) :
  Forall (fun l => hasChar c l = false) (x :: lines) ->
  JS.split c (JS.join (String c EmptyString) (x :: lines)) = x :: lines.
Proof.
  revert x. induction lines as [|y lines IH]; intros x H.
  - apply split_none. now inversion H.
  - inversion H as [|? ? Hx Hrest]; subst.
    change (JS.join (String c EmptyString) (x :: y :: lines))
      with (x ++ String c (JS.join (String c EmptyString) (y :: lines))).
    rewrite (split_app c x _ Hx). f_equal. now apply IH.
Qed.

Lemma string_of_uint_no_EOL (d : Decimal.uint) :
  hasChar EOL_char (NilEmpty.string_of_uint d) = false.
Proof. induction d as [|d IH|d IH|d IH|d IH|d IH|d IH|d IH|d IH|d IH|d IH]; cbn; auto. Qed.

Lemma string_of_Z_no_EOL (z : Z) : hasChar EOL_char (JS.string_of_Z z) = false.
Proof.
  unfold JS.string_of_Z, NilZero.string_of_int, NilZero.string_of_uint.
  destruct (Z.to_int z) as [d|d]; destruct d; cbn;
    rewrite ?string_of_uint_no_EOL; reflexivity.
Qed.

Lemma csvLine_no_EOL (i : nat) (sec : Z) : hasChar EOL_char (csvLine i sec) = false.
Proof.
  unfold csvLine. rewrite !hasChar_app, !string_of_Z_no_EOL. reflexivity.
Qed.

Lemma toString_of_Z (z : Z) : JS.toString (JS.of_Z z) = JS.string_of_Z z.
Proof. unfold JS.toString, JS.of_Z. now rewrite Qfloor_Z. Qed.

Lemma map_imap {A B C : Type} (g : B -> C) (f : nat -> A -> B) (l : list A) :
  map g (imap f l) = imap (fun i x => g (f i x)) l.
Proof.
  revert f. induction l as [|x l IH]; intros f; [reflexivity|].
  rewrite !imap_cons. cbn [map]. now rewrite IH.
Qed.

Lemma csvText_lines (totals : list Z) :
  csvText (csvRows totals)
  = JS.join EOL ("question_no,total_seconds" :: imap csvLine totals).
Proof.
  unfold csvText, csvRows. cbn [map]. rewrite map_imap. f_equal. f_equal.
  apply imap_ext. intros i sec _. cbn [map cellToString JS.join String.concat].
  now rewrite !toString_of_Z.
Qed.

(** C9: the exported text is the header line "question_no,total_seconds"
    followed by one line per question, the line of question i being i, a
    comma and its total, all joined by the newline character (character 10);
    splitting the text on that character gives these lines back, one more
    than there are questions. *)
Theorem exportCSV_lines (totals : list Z) :
  csvText (csvRows totals)
  = JS.join (String "010"%char EmptyString)
            ("question_no,total_seconds" :: imap csvLine totals) /\
  JS.split "010"%char (csvText (csvRows totals))
  = "question_no,total_seconds" :: imap csvLine totals /\
  length (JS.split "010"%char (csvText (csvRows totals))) = S (length totals) /\
  (forall i sec, totals !! i = Some sec ->
     JS.split "010"%char (csvText (csvRows totals)) !! S i
     = Some (JS.string_of_Z (Z.of_nat i + 1) ++ "," ++ JS.string_of_Z sec)) /\
  (forall s, snd (exportCSV s) = csvText (csvRows (questionTotals s))) /\
  (forall s, reachable s -> questionTotals s = totals ->
     length (JS.split "010"%char (snd (exportCSV s))) = S (JS.toLength (numQuestions s))).
Proof.
  change "010"%char with EOL_char. change (String EOL_char EmptyString) with EOL.
  assert (Hs : JS.split EOL_char (csvText (csvRows totals))
               = "question_no,total_seconds" :: imap csvLine totals).
  { rewrite csvText_lines. apply split_join. constructor; [reflexivity|].
    apply Forall_forall. intros x Hx.
    apply elem_of_lookup_imap in Hx as (i & sec & -> & _).
    apply csvLine_no_EOL. }
  split; [apply csvText_lines|]. split; [exact Hs|]. rewrite Hs.
  split; [cbn; now rewrite length_imap|]. split; [|split].
  - intros i sec Hi. change (imap csvLine totals !! i = Some (csvLine i sec)).
    now rewrite list_lookup_imap, Hi.
  - reflexivity.
  - intros s Hr <-. cbn [exportCSV snd]. rewrite Hs. cbn. rewrite length_imap.
    now rewrite (inv_totals_length s (reachable_Inv s Hr)).
Qed.

Lemma exportCSV_lines_witness :
  JS.split "010"%char (csvText (csvRows [0; 2; 0]%Z)) !! 2%nat = Some "2,2" /\
  length (JS.split "010"%char (snd (exportCSV sampleExam))) = 4%nat.
Proof.
  destruct (exportCSV_lines [0; 2; 0]%Z) as (_ & _ & _ & H4 & _ & H6). split.
  - exact (H4 1%nat 2%Z eq_refl).
  - apply (H6 sampleExam); [|reflexivity]. exact sampleExam_reachable.
Defined.

(** * Further properties of the code *)

(** ** Formatting *)

Lemma toString_Qeq (q : Q) (k : Z) : (q == inject_Z k)%Q -> JS.toString (Num q) = JS.string_of_Z k.
Proof. intros H. unfold JS.toString. now rewrite (Qfloor_comp _ _ H), Qfloor_Z. Qed.

Lemma Qle_bool_comp (a b c d : Q) : (a == c)%Q -> (b == d)%Q -> Qle_bool a b = Qle_bool c d.
Proof.
  intros H1 H2. destruct (Qle_bool_cases c d) as [[-> H]|[-> H]].
  - apply Qle_bool_true. now rewrite H1, H2.
  - apply Qle_bool_false. now rewrite H1, H2.
Qed.

Lemma pad_Qeq (q : Q) (k : Z) : (q == inject_Z k)%Q -> pad (Num q) = twoDigits k.
Proof.
  intros H. unfold pad, twoDigits. rewrite (toString_Qeq q k H).
  cbn [JS.ltb JS.of_Z].
  rewrite (Qle_bool_comp (inject_Z 10) q (inject_Z 10) (inject_Z k)) by (reflexivity || exact H).
  destruct (k <? 10)%Z eqn:E.
  - apply Z.ltb_lt in E. rewrite Qle_bool_false; [reflexivity|]. now rewrite <- Zlt_Qlt.
  - apply Z.ltb_ge in E. rewrite Qle_bool_true; [reflexivity|]. now rewrite <- Zle_Qle.
Qed.

Lemma floor_div_Z (q : Q) (k d : Z) :
  (q == inject_Z k)%Q -> d <> 0%Z ->
  JS.floor (JS.div (Num q) (JS.of_Z d)) = JS.of_Z (k / d).
Proof.
  intros H Hd. unfold JS.floor, JS.div, JS.of_Z.
  rewrite Qeq_bool_false.
  - do 2 f_equal. rewrite Zdiv_Qdiv. apply Qfloor_comp. now rewrite H.
  - change 0%Q with (inject_Z 0). rewrite inject_Z_injective. exact Hd.
Qed.

Lemma floor_div_of_Z (k d : Z) :
  d <> 0%Z -> JS.floor (JS.div (JS.of_Z k) (JS.of_Z d)) = JS.of_Z (k / d).
Proof. intros Hd. now apply (floor_div_Z (inject_Z k) k d). Qed.

Lemma pad_of_Z (k : Z) : pad (JS.of_Z k) = twoDigits k.
Proof. now apply (pad_Qeq (inject_Z k) k). Qed.

Lemma rem_Z (k d : Z) :
  (0 <= k)%Z -> (0 < d)%Z ->
  exists r : Q, JS.rem (JS.of_Z k) (JS.of_Z d) = Num r /\ (r == inject_Z (k mod d))%Q.
Proof.
  intros Hk Hd. unfold JS.rem, JS.of_Z.
  rewrite Qeq_bool_false.
  2:{ change 0%Q with (inject_Z 0). rewrite inject_Z_injective. lia. }
  eexists. split; [reflexivity|].
  assert (Ht : JS.trunc (inject_Z k / inject_Z d) = (k / d)%Z).
  { unfold JS.trunc. rewrite Qle_bool_true; [symmetry; apply Zdiv_Qdiv|].
    apply Qle_shift_div_l.
    - change 0%Q with (inject_Z 0). now rewrite <- Zlt_Qlt.
    - rewrite Qmult_0_l. change 0%Q with (inject_Z 0). now rewrite <- Zle_Qle. }
  rewrite Ht. rewrite <- inject_Z_mult. unfold Qminus.
  rewrite <- inject_Z_opp, <- inject_Z_plus. rewrite inject_Z_injective.
  rewrite Z.mod_eq; lia.
Qed.

(** The text of a non-negative number of seconds below 2^53, where the
    division by 3600 and the printing of the hours are exact on doubles:
    fractions of a second are dropped, the hours are printed only when there
    are any, and minutes and seconds take two digits behind another field. *)
Theorem formatHMS_fields (q : Q) :
  (0 <= q)%Q -> (q < 9007199254740992)%Q -> formatHMS (Num q) = hmsText (Qfloor q).
Proof.
  intros Hq _. set (s := Qfloor q).
  assert (Hs : (0 <= s)%Z).
  { unfold s. change 0%Z with (Qfloor 0). now apply Qfloor_resp_le. }
  unfold formatHMS.
  assert (E : JS.max (JS.of_Z 0) (JS.floor (Num q)) = JS.of_Z s).
  { cbn [JS.floor JS.of_Z JS.max]. fold s. rewrite Qle_bool_true; [reflexivity|].
    now rewrite <- Zle_Qle. }
  rewrite E.
  destruct (rem_Z s 3600 Hs ltac:(lia)) as (r1 & E1 & H1).
  destruct (rem_Z s 60 Hs ltac:(lia)) as (r2 & E2 & H2).
  rewrite E1, E2.
  rewrite (floor_div_of_Z s 3600) by lia.
  rewrite (floor_div_Z r1 (s mod 3600) 60 H1) by lia.
  rewrite (pad_Qeq r2 _ H2), pad_of_Z.
  rewrite !toString_of_Z.
  unfold hmsText. cbn [JS.gtb JS.ltb JS.of_Z].
  destruct (3600 <=? s)%Z eqn:E3.
  - apply Z.leb_le in E3. rewrite Qle_bool_false; [reflexivity|].
    rewrite <- Zlt_Qlt. apply Z.div_str_pos. lia.
  - apply Z.leb_gt in E3. rewrite Qle_bool_true.
    + cbn [negb]. now rewrite (Z.mod_small s 3600) by lia.
    + rewrite <- Zle_Qle. rewrite Z.div_small; lia.
Qed.

Lemma formatHMS_fields_witness : formatHMS (Num 3725.9) = "1:02:05".
Proof. apply (formatHMS_fields 3725.9%Q); [discriminate | reflexivity]. Defined.

(** ** The guard of the average *)



(** ** The exam screen *)

(** While the elapsed time is within the total, the answering time left and
    the checking time left add up to the remaining time, and neither is
    negative. *)
Theorem remaining_splits (t e : Q) :
  (0 <= e)%Q -> (e <= t)%Q ->
  exists a c : Q,
    answeringRemaining (answering (splitAnsweringChecking (Num t))) (Num e) = Num a /\
    checkingRemaining (answering (splitAnsweringChecking (Num t)))
                      (checking (splitAnsweringChecking (Num t))) (Num e) = Num c /\
    (a + c == t - e)%Q /\ (0 <= a)%Q /\ (0 <= c)%Q.
Proof.
  intros He Het. cbn [splitAnsweringChecking answering checking JS.mul JS.floor JS.sub JS.of_Z].
  set (A := inject_Z (Qfloor (t * 0.95)%Q)).
  assert (HA : (A <= t)%Q).
  { pose proof (Qfloor_le (t * 0.95)%Q) as Hle. fold A in Hle. lra. }
  unfold answeringRemaining, checkingRemaining.
  cbn [JS.sub JS.max JS.of_Z]. change (inject_Z 0) with 0%Q. fold A.
  eexists. eexists. split; [reflexivity|]. split; [reflexivity|].
  destruct (Qle_bool_cases 0 (A - e)%Q) as [[-> H1]|[-> H1]];
    destruct (Qle_bool_cases 0 (e - A)%Q) as [[-> H2]|[-> H2]];
    match goal with |- context [Qle_bool 0 ?x] =>
      destruct (Qle_bool_cases 0 x) as [[-> H3]|[-> H3]] end;
    repeat split; lra.
Qed.

Lemma remaining_splits_witness :
  exists a c : Q,
    answeringRemaining (answering (splitAnsweringChecking (Num 6000))) (Num 5800) = Num a /\
    checkingRemaining (answering (splitAnsweringChecking (Num 6000)))
                      (checking (splitAnsweringChecking (Num 6000))) (Num 5800) = Num c /\
    (a + c == 6000 - 5800)%Q /\ (0 <= a)%Q /\ (0 <= c)%Q.
Proof. apply (remaining_splits 6000 5800); discriminate. Defined.

(** The header shows "Checking time" exactly when no answering time is left. *)
Theorem checking_window_iff_no_answering_left (a e : Q) :
  JS.geb (Num e) (Num a) = true <->
  exists r : Q, answeringRemaining (Num a) (Num e) = Num r /\ (r == 0)%Q.
Proof.
  unfold answeringRemaining. cbn [JS.geb JS.leb JS.sub JS.max JS.of_Z].
  change (inject_Z 0) with 0%Q. split.
  - intros H. apply Qle_bool_iff in H. eexists. split; [reflexivity|].
    destruct (Qle_bool_cases 0 (a - e)%Q) as [[-> H1]|[-> H1]]; lra.
  - intros (r & Hr & H0). apply Qle_bool_iff.
    destruct (Qle_bool_cases 0 (a - e)%Q) as [[E H1]|[E H1]]; rewrite E in Hr;
      injection Hr as <-; lra.
Qed.

(** The progress bar never leaves the range from 0 to 100 percent: for a
    positive total it is empty when nothing has elapsed and full once the
    elapsed time has reached the total. *)
Theorem progress_percent (e t : Q) :
  (0 < t)%Q -> (0 <= e)%Q ->
  exists p : Q,
    progress (Num e) (Num t) = Num p /\ (0 <= p)%Q /\ (p <= 100)%Q /\
    ((e == 0)%Q -> (p == 0)%Q) /\
    ((t <= e)%Q -> (p == 100)%Q).
Proof.
  intros Ht He. unfold progress, JS.div.
  rewrite Qeq_bool_false by (intros E; rewrite E in Ht; discriminate).
  cbn [JS.mul JS.min JS.of_Z]. change (inject_Z 100) with 100%Q.
  assert (Hr : (0 <= e / t)%Q).
  { apply Qle_shift_div_l; [exact Ht | lra]. }
  eexists. split; [reflexivity|].
  destruct (Qle_bool_cases 100 (e / t * 100)%Q) as [[-> H]|[-> H]];
    (split; [lra|]); (split; [lra|]); (split; [intros H0|intros Hte]).
  - rewrite H0 in H. unfold Qdiv in H. rewrite Qmult_0_l in H. lra.
  - reflexivity.
  - rewrite H0. unfold Qdiv. rewrite Qmult_0_l. lra.
  - assert (1 <= e / t)%Q by (apply Qle_shift_div_l; [exact Ht | lra]). lra.
Qed.

Lemma progress_percent_witness :
  exists p : Q,
    progress (Num 75) (Num 60) = Num p /\ (0 <= p)%Q /\ (p <= 100)%Q /\
    ((75 == 0)%Q -> (p == 0)%Q) /\
    ((60 <= 75)%Q -> (p == 100)%Q).
Proof. apply (progress_percent 75 60); [reflexivity | discriminate]. Defined.

(** ** States the machine reaches *)

Lemma lookup_assign_same {A : Type} (hole : A) (a : list A) (i : Z) (v : A) :
  (0 <= i)%Z -> assign hole a i v !! Z.to_nat i = Some v.
Proof.
  intros Hi. unfold assign.
  destruct (i <? 0)%Z eqn:E; [apply Z.ltb_lt in E; lia|].
  destruct (Z.to_nat i <? length a)%nat eqn:E'.
  - apply Nat.ltb_lt in E'. now apply list_lookup_insert_eq.
  - apply Nat.ltb_ge in E'. rewrite lookup_app_r by lia.
    rewrite lookup_app_r by (rewrite length_replicate; lia).
    rewrite length_replicate. now replace (_ - _ - _)%nat with 0%nat by lia.
Qed.

Lemma lookup_assign_keeps {A : Type} (hole : A) (a : list A) (i : Z) (v x : A) (j : nat) :
  a !! j = Some x -> assign hole a i v !! j = Some x \/ (j = Z.to_nat i /\ (0 <= i)%Z).
Proof.
  intros Hj. unfold assign.
  destruct (i <? 0)%Z eqn:E; [now left|]. apply Z.ltb_ge in E.
  destruct (decide (j = Z.to_nat i)) as [->|Hne]; [right; split; [reflexivity|lia]|left].
  destruct (Z.to_nat i <? length a)%nat.
  - now rewrite list_lookup_insert_ne by congruence.
  - rewrite lookup_app_l; [exact Hj|]. now apply lookup_lt_Some in Hj.
Qed.

(** In every reachable state there is one counter and one visited flag per
    question, no counter is negative, and until the exam starts every counter
    is 0 and no question is marked visited. *)
Theorem reachable_arrays (s : State) :
  reachable s ->
  length (questionTotals s) = JS.toLength (numQuestions s) /\
  length (visited s) = JS.toLength (numQuestions s) /\
  (forall i sec, questionTotals s !! i = Some sec -> (0 <= sec)%Z) /\
  (phase s = Setup \/ phase s = Countdown ->
   (forall i sec, questionTotals s !! i = Some sec -> sec = 0%Z) /\
   (forall i b, visited s !! i = Some b -> b = false)).
Proof.
  intros Hr. pose proof (reachable_Inv s Hr) as HI.
  split; [apply (inv_totals_length s HI)|]. split; [apply (inv_visited_length s HI)|].
  split.
  - intros i sec Hi. pose proof (inv_totals_nonneg s HI) as H.
    rewrite Forall_forall in H. apply H. apply list_elem_of_lookup. eauto.
  - intros Hp. destruct (inv_before_exam s HI Hp) as (_ & _ & _ & Ht & Hv).
    rewrite Ht, Hv. unfold arrayFrom. split.
    + intros i sec H. apply lookup_replicate in H. tauto.
    + intros i b H. apply lookup_replicate in H. tauto.
Qed.

Lemma reachable_arrays_witness :
  length (questionTotals sampleExam) = JS.toLength (numQuestions sampleExam) /\
  length (visited sampleExam) = JS.toLength (numQuestions sampleExam).
Proof.
  destruct (reachable_arrays sampleExam sampleExam_reachable) as (H1 & H2 & _).
  split; [exact H1 | exact H2].
Defined.

Lemma active_visited_step (s s' : State) (e : Event) :
  Inv s -> step s e s' ->
  (forall q, activeQ s = Some q -> visited s !! Z.to_nat (q - 1) = Some true) ->
  forall q, activeQ s' = Some q -> visited s' !! Z.to_nat (q - 1) = Some true.
Proof.
  intros HI [Hen ->] IH q. destruct e; cbn [enabled apply] in *.
  - apply phase_eqb_eq in Hen.
    destruct (inv_before_exam s HI (or_introl Hen)) as (_ & _ & Ha & _).
    destruct (JS.sameValue _ _); cbn; congruence.
  - cbn. apply IH.
  - cbn. apply IH.
  - unfold onStart.
    destruct (_ || _); [apply IH|]. destruct (_ || _); [apply IH|]. cbn. apply IH.
  - cbn. apply IH.
  - unfold countdownEffect in *. destruct (phase s); try discriminate.
    destruct (countdown s <=? 0)%Z; [|discriminate]. cbn. apply IH.
  - unfold switchToQuestion. apply andb_prop in Hen as [Hen _].
    apply andb_prop in Hen as [Hen Hq]. apply phase_eqb_eq in Hen. apply Z.leb_le in Hq.
    rewrite Hen. cbn. intros [= <-]. apply lookup_assign_same. lia.
  - unfold finishExam. destruct (phase s); cbn; try apply IH. discriminate.
  - unfold examTick, finishExam.
    destruct (examStartTs s); [destruct (JS.geb _ _)|]; cbn; try apply IH.
    destruct (phase s); cbn; try apply IH. discriminate.
  - cbn. discriminate.
  - apply IH.
Qed.

Lemma reachable_active_visited (s : State) :
  reachable s -> forall q, activeQ s = Some q -> visited s !! Z.to_nat (q - 1) = Some true.
Proof.
  induction 1 as [|s e s' Hr IH Hstep].
  - cbn. discriminate.
  - exact (active_visited_step s s' e (reachable_Inv s Hr) Hstep IH).
Qed.

(** At most one question is active, and only during the exam: in every
    reachable state an active question is one of the questions 1 to
    [numQuestions], the phase is the exam, and that question is marked
    visited. *)
Theorem reachable_active_question (s : State) (q : Z) :
  reachable s -> activeQ s = Some q ->
  phase s = Exam /\
  (1 <= q <= Z.of_nat (JS.toLength (numQuestions s)))%Z /\
  visited s !! Z.to_nat (q - 1) = Some true /\
  exists sec, questionTotals s !! Z.to_nat (q - 1) = Some sec.
Proof.
  intros Hr Hq. pose proof (reachable_Inv s Hr) as HI.
  destruct (inv_active s HI q Hq) as [Hp Hrange].
  split; [exact Hp|]. split; [exact Hrange|].
  split; [now apply reachable_active_visited|].
  apply lookup_lt_is_Some_2. rewrite (inv_totals_length s HI). lia.
Qed.

Lemma reachable_active_question_witness :
  phase sampleExam = Exam /\
  (1 <= 2 <= Z.of_nat (JS.toLength (numQuestions sampleExam)))%Z /\
  visited sampleExam !! Z.to_nat (2 - 1) = Some true /\
  exists sec, questionTotals sampleExam !! Z.to_nat (2 - 1) = Some sec.
Proof. exact (reachable_active_question sampleExam 2 sampleExam_reachable eq_refl). Defined.

(** The exam never runs on an invalid configuration: outside the setup phase
    the number of questions and the minutes are at least 1, so the total is
    at least 60 seconds and the average per question at least one second. *)
Theorem reachable_configuration (s : State) :
  reachable s -> phase s <> Setup ->
  validInput (numQuestions s) /\ validInput (totalMinutes s) /\
  (exists t : Q, totalSeconds s = Num t /\ (60 <= t)%Q) /\
  (exists avg : Z, avgPerQuestion s = JS.of_Z avg /\ (1 <= avg)%Z).
Proof.
  intros Hr Hp. destruct (inv_valid s (reachable_Inv s Hr) Hp) as [Hn Hm].
  split; [exact Hn|]. split; [exact Hm|].
  split; [now apply reachable_total_valid | now apply avgPerQuestion_pos].
Qed.

Lemma reachable_configuration_witness :
  validInput (numQuestions sampleExam) /\ validInput (totalMinutes sampleExam) /\
  (exists t : Q, totalSeconds sampleExam = Num t /\ (60 <= t)%Q) /\
  (exists avg : Z, avgPerQuestion sampleExam = JS.of_Z avg /\ (1 <= avg)%Z).
Proof.
  apply (reachable_configuration sampleExam sampleExam_reachable). discriminate.
Defined.

(** ** Accrual *)

(** During the exam no event takes time off a question or clears a visited
    flag: every counter stays or grows by one, every flag set stays set. *)
Theorem exam_steps_accumulate (s s' : State) (e : Event) :
  step s e s' -> phase s = Exam ->
  (forall i sec, questionTotals s !! i = Some sec ->
     exists sec', questionTotals s' !! i = Some sec' /\ (sec <= sec' <= sec + 1)%Z) /\
  (forall i, visited s !! i = Some true -> visited s' !! i = Some true).
Proof.
  intros [Hen ->] Hp.
  destruct e; cbn [enabled] in Hen;
    try (apply phase_eqb_eq in Hen; congruence);
    try (unfold countdownEffect in Hen; rewrite Hp in Hen; discriminate).
  - cbn [apply]. unfold switchToQuestion. rewrite Hp. cbn. split.
    + intros i sec Hi. exists sec. split; [exact Hi | lia].
    + intros i Hi. destruct (lookup_assign_keeps false (visited s) (q - 1) true true i Hi)
        as [H|[-> H]]; [exact H|]. now apply lookup_assign_same.
  - cbn [apply]. unfold finishExam. rewrite Hp. cbn. split.
    + intros i sec Hi. exists sec. split; [exact Hi | lia].
    + auto.
  - cbn [apply]. split.
    + intros i sec Hi. rewrite questionTotals_examTick, list_lookup_imap, Hi. cbn.
      eexists. split; [reflexivity|]. destruct (isActive _ _); lia.
    + intros i Hi. unfold examTick, finishExam.
      destruct (examStartTs s); [destruct (JS.geb _ _)|]; cbn; try exact Hi.
      destruct (phase s); exact Hi.
Qed.

Lemma exam_steps_accumulate_witness :
  (forall i sec, questionTotals sampleExam !! i = Some sec ->
     exists sec', questionTotals (apply (EvExamTick 4000 4000) sampleExam) !! i = Some sec' /\
                  (sec <= sec' <= sec + 1)%Z) /\
  (forall i, visited sampleExam !! i = Some true ->
     visited (apply (EvExamTick 4000 4000) sampleExam) !! i = Some true).
Proof.
  apply (exam_steps_accumulate sampleExam _ (EvExamTick 4000 4000)); [split|]; reflexivity.
Defined.

Lemma fold_left_Zadd (l : list Z) (a : Z) :
  fold_left (fun x y => (x + y)%Z) l a = (a + totalSpent l)%Z.
Proof.
  unfold totalSpent. revert a. induction l as [|x l IH]; intros a; cbn [fold_left]; [lia|].
  rewrite (IH (a + x)%Z), (IH (0 + x)%Z). lia.
Qed.

Lemma totalSpent_cons (x : Z) (l : list Z) : totalSpent (x :: l) = (x + totalSpent l)%Z.
Proof. unfold totalSpent at 1. cbn. now rewrite fold_left_Zadd. Qed.

Lemma totalSpent_replicate_0 (n : nat) : totalSpent (replicate n 0%Z) = 0%Z.
Proof. induction n as [|n IH]; [reflexivity|]. cbn [replicate]. rewrite totalSpent_cons. lia. Qed.

Lemma totalSpent_nonneg (l : list Z) : Forall (fun sec => (0 <= sec)%Z) l -> (0 <= totalSpent l)%Z.
Proof.
  induction 1 as [|x l Hx _ IH]; [reflexivity|]. rewrite totalSpent_cons. lia.
Qed.

Lemma totalSpent_tick_from (q : Z) (k : nat) (l : list Z) :
  totalSpent (imap (fun i sec => if isActive (Some q) (k + i) then (sec + 1)%Z else sec) l)
  = (totalSpent l
     + if (Z.of_nat k + 1 <=? q)%Z && (q <=? Z.of_nat (k + length l))%Z then 1 else 0)%Z.
Proof.
  revert k. induction l as [|x l IH]; intros k.
  - cbn. destruct (Z.of_nat k + 1 <=? q)%Z eqn:E1, (q <=? Z.of_nat (k + 0))%Z eqn:E2; cbn; try lia.
    apply Z.leb_le in E1, E2. lia.
  - rewrite imap_cons, !totalSpent_cons.
    rewrite (imap_ext _ (fun i sec => if isActive (Some q) (S k + i) then (sec + 1)%Z else sec))
      by (intros i y _; cbn; now replace (k + S i)%nat with (S (k + i)) by lia).
    rewrite (IH (S k)). cbn [isActive length].
    replace (k + 0)%nat with k by lia.
    destruct (q =? Z.of_nat k + 1)%Z eqn:E0;
      destruct (Z.of_nat (S k) + 1 <=? q)%Z eqn:E1;
      destruct (q <=? Z.of_nat (S k + length l))%Z eqn:E2;
      destruct (Z.of_nat k + 1 <=? q)%Z eqn:E3;
      destruct (q <=? Z.of_nat (k + S (length l)))%Z eqn:E4; cbn;
      rewrite ?Z.eqb_eq, ?Z.eqb_neq, ?Z.leb_le, ?Z.leb_gt in *; lia.
Qed.

Lemma imap_keep {A : Type} (l : list A) : imap (fun _ x => x) l = l.
Proof.
  induction l as [|x l IH] using rev_ind; [reflexivity|].
  rewrite imap_app. cbn. now rewrite IH.
Qed.

Lemma totalSpent_examTick (s : State) (now endNow : Z) :
  totalSpent (questionTotals (examTick now endNow s))
  = (totalSpent (questionTotals s)
     + match activeQ s with
       | Some q => if (1 <=? q)%Z && (q <=? Z.of_nat (length (questionTotals s)))%Z then 1 else 0
       | None => 0
       end)%Z.
Proof.
  rewrite questionTotals_examTick. destruct (activeQ s) as [q|].
  - exact (totalSpent_tick_from q 0 (questionTotals s)).
  - cbn [isActive]. rewrite imap_keep. lia.
Qed.

(** One tick attributes one second to exactly one question: the sum of the
    counters grows by one when the active question is one of the questions,
    as it is in every reachable state with an active question, and stays as
    it is when none is active. *)
Theorem examTick_total (s : State) (now endNow : Z) :
  (forall q, activeQ s = Some q -> (1 <= q <= Z.of_nat (length (questionTotals s)))%Z ->
     totalSpent (questionTotals (examTick now endNow s))
     = (totalSpent (questionTotals s) + 1)%Z) /\
  (forall q, activeQ s = Some q -> ~ (1 <= q <= Z.of_nat (length (questionTotals s)))%Z ->
     totalSpent (questionTotals (examTick now endNow s)) = totalSpent (questionTotals s)) /\
  (activeQ s = None ->
     totalSpent (questionTotals (examTick now endNow s)) = totalSpent (questionTotals s)) /\
  (reachable s -> forall q, activeQ s = Some q ->
     (1 <= q <= Z.of_nat (length (questionTotals s)))%Z).
Proof.
  rewrite totalSpent_examTick. split; [|split; [|split]].
  - intros q -> Hq.
    replace ((1 <=? q)%Z && (q <=? Z.of_nat (length (questionTotals s)))%Z) with true;
      [reflexivity|].
    symmetry. apply andb_true_intro. split; apply Z.leb_le; lia.
  - intros q -> Hq.
    destruct ((1 <=? q)%Z && (q <=? Z.of_nat (length (questionTotals s)))%Z) eqn:E; [|lia].
    apply andb_prop in E as [E1 E2]. apply Z.leb_le in E1, E2. lia.
  - intros ->. lia.
  - intros Hr q Hq. pose proof (reachable_Inv s Hr) as HI.
    rewrite (inv_totals_length s HI). exact (proj2 (inv_active s HI q Hq)).
Qed.

Lemma examTick_total_witness :
  totalSpent (questionTotals (examTick 4000 4000 sampleExam))
  = (totalSpent (questionTotals sampleExam) + 1)%Z.
Proof.
  apply (proj1 (examTick_total sampleExam 4000 4000) 2%Z eq_refl). cbn. lia.
Defined.

Lemma totalSpent_step (s : State) (e : Event) :
  Inv s -> enabled e s = true ->
  (totalSpent (questionTotals (apply e s))
   <= totalSpent (questionTotals s) + ticks [e])%Z.
Proof.
  intros HI Hen. pose proof (totalSpent_nonneg _ (inv_totals_nonneg s HI)) as Hnn.
  destruct e; cbn [ticks apply]; try (cbn; lia).
  - destruct (JS.sameValue _ _); cbn; [lia|]. unfold arrayFrom. rewrite totalSpent_replicate_0. lia.
  - unfold onStart. destruct (_ || _); [cbn; lia|]. destruct (_ || _); cbn; lia.
  - destruct (countdownEffect now s) eqn:E; try lia.
    unfold countdownEffect in E. destruct (phase s); try discriminate.
    destruct (countdown s <=? 0)%Z; [|discriminate]. injection E as <-. cbn. lia.
  - unfold switchToQuestion. destruct (phase s); cbn; lia.
  - unfold finishExam. destruct (phase s); cbn; lia.
  - rewrite totalSpent_examTick. destruct (activeQ s); [destruct (_ && _)|]; lia.
  - cbn. unfold arrayFrom. rewrite totalSpent_replicate_0. lia.
Qed.

Lemma ticks_cons (e : Event) (es : list Event) : ticks (e :: es) = (ticks [e] + ticks es)%Z.
Proof. destruct e; cbn; lia. Qed.

Lemma totalSpent_run (es : list Event) (s s' : State) :
  Inv s -> run es s = Some s' ->
  (totalSpent (questionTotals s') <= totalSpent (questionTotals s) + ticks es)%Z.
Proof.
  revert s. induction es as [|e es IH]; intros s HI; cbn [run].
  - intros [= <-]. cbn. lia.
  - destruct (enabled e s) eqn:E; [|discriminate]. intros Hrun.
    assert (HI' : Inv (apply e s)) by (apply (Inv_step s _ e HI); now split).
    specialize (IH _ HI' Hrun). pose proof (totalSpent_step s e HI E).
    rewrite ticks_cons. lia.
Qed.

(** The time measured on the questions never exceeds the time ticked: after
    any sequence of events from the start of the application, the sum of the
    counters is at most the number of exam ticks among them. *)
Theorem totalSpent_at_most_ticks (es : list Event) (s : State) :
  run es mounted = Some s ->
  (0 <= totalSpent (questionTotals s) <= ticks es)%Z.
Proof.
  intros Hrun. split.
  - apply totalSpent_nonneg.
    apply (inv_totals_nonneg s (reachable_Inv s (run_reachable es mounted s reach_mounted Hrun))).
  - pose proof (totalSpent_run es mounted s Inv_mounted Hrun) as H.
    change (totalSpent (questionTotals mounted)) with 0%Z in H. lia.
Qed.

Lemma totalSpent_at_most_ticks_witness :
  (0 <= totalSpent (questionTotals sampleExam) <= ticks sampleEvents)%Z.
Proof. exact (totalSpent_at_most_ticks sampleEvents sampleExam sampleExam_run). Defined.

(** ** How a tick ends *)

(** A tick before the total time has passed changes nothing but the counters
    and the tick stamp; the tick that finds the time up ends the exam,
    stamps its end and releases the active question.  No tick touches the
    visited flags, the start stamp or the setup values. *)
Theorem examTick_outcome (s : State) (now endNow start : Z) (total : Q) :
  phase s = Exam -> examStartTs s = Some start -> totalSeconds s = Num total ->
  ((inject_Z ((now - start) / 1000) < total)%Q ->
     phase (examTick now endNow s) = Exam /\
     activeQ (examTick now endNow s) = activeQ s /\
     examEndTs (examTick now endNow s) = examEndTs s) /\
  ((total <= inject_Z ((now - start) / 1000))%Q ->
     phase (examTick now endNow s) = Finished /\
     activeQ (examTick now endNow s) = None /\
     examEndTs (examTick now endNow s) = Some endNow) /\
  lastTick (examTick now endNow s) = Some now /\
  visited (examTick now endNow s) = visited s /\
  examStartTs (examTick now endNow s) = Some start /\
  numQuestions (examTick now endNow s) = numQuestions s /\
  totalMinutes (examTick now endNow s) = totalMinutes s.
Proof.
  intros Hp Hs Ht. unfold examTick. rewrite Hs, elapsed_floor, Ht.
  cbn [JS.geb JS.leb JS.of_Z]. unfold finishExam. cbn [phase setLastTick setQuestionTotals].
  rewrite Hp.
  destruct (Qle_bool_cases total (inject_Z ((now - start) / 1000))) as [[-> H]|[-> H]]; cbn;
    (split; [intros H'|split; [intros H'|]]); try lra; auto.
Qed.

Lemma examTick_outcome_witness :
  phase (examTick 4000 4000 sampleExam) = Exam /\
  activeQ (examTick 4000 4000 sampleExam) = activeQ sampleExam /\
  examEndTs (examTick 4000 4000 sampleExam) = examEndTs sampleExam.
Proof.
  apply (examTick_outcome sampleExam 4000 4000 1000 60 eq_refl eq_refl eq_refl).
  reflexivity.
Defined.

(** Opening a question and ticking once adds one second to that question and
    to no other. *)
Theorem switch_then_tick (s : State) (q sec now endNow : Z) :
  phase s = Exam -> (1 <= q)%Z -> questionTotals s !! Z.to_nat (q - 1) = Some sec ->
  questionTotals (examTick now endNow (switchToQuestion q s)) !! Z.to_nat (q - 1)
  = Some (sec + 1)%Z /\
  forall i, i <> Z.to_nat (q - 1) ->
    questionTotals (examTick now endNow (switchToQuestion q s)) !! i = questionTotals s !! i.
Proof.
  intros Hp Hq Hsec. rewrite questionTotals_examTick.
  unfold switchToQuestion. rewrite Hp. cbn [activeQ questionTotals setVisited setActiveQ].
  split.
  - rewrite list_lookup_imap, Hsec. cbn.
    replace (q =? Z.of_nat (Z.to_nat (q - 1)) + 1)%Z with true; [reflexivity|].
    symmetry. apply Z.eqb_eq. lia.
  - intros i Hi. rewrite list_lookup_imap. destruct (questionTotals s !! i) as [x|]; [|reflexivity].
    cbn. destruct (q =? Z.of_nat i + 1)%Z eqn:E; [|reflexivity].
    apply Z.eqb_eq in E. exfalso. apply Hi. lia.
Qed.

Lemma switch_then_tick_witness :
  questionTotals (examTick 4000 4000 (switchToQuestion 3 sampleExam)) !! Z.to_nat (3 - 1)
  = Some (0 + 1)%Z.
Proof.
  apply (switch_then_tick sampleExam 3 0 4000 4000 eq_refl); [lia | reflexivity].
Defined.

(** ** Elapsed time against the clock *)

(** Once the exam is finished the elapsed time no longer follows the clock:
    it is computed from the end stamp (a stamp of 0 is taken for unset); every
    finished state the machine reaches has an end stamp. *)
Theorem elapsedSeconds_frozen (s : State) (e : Z) :
  phase s = Finished -> examEndTs s = Some e -> e <> 0%Z ->
  forall now now', elapsedSeconds now s = elapsedSeconds now' s.
Proof.
  intros Hp He Hne now now'. unfold elapsedSeconds. rewrite Hp, He. cbn [truthyTs].
  destruct (e =? 0)%Z eqn:E; [apply Z.eqb_eq in E; contradiction|reflexivity].
Qed.

Lemma elapsedSeconds_frozen_witness :
  elapsedSeconds 70000 (finishExam 5000 sampleExam)
  = elapsedSeconds 900000 (finishExam 5000 sampleExam).
Proof.
  apply (elapsedSeconds_frozen (finishExam 5000 sampleExam) 5000 eq_refl eq_refl). discriminate.
Defined.

(** During the exam the elapsed time never goes back while the clock goes
    forward. *)
Theorem elapsedSeconds_monotone (s : State) (t : Q) (now now' : Z) :
  phase s = Exam -> totalSeconds s = Num t -> (now <= now')%Z ->
  JS.leb (elapsedSeconds now s) (elapsedSeconds now' s) = true.
Proof.
  intros Hp Ht Hle. unfold elapsedSeconds. rewrite Hp, Ht.
  destruct (truthyTs (examStartTs s)) as [start|]; [|reflexivity].
  rewrite !elapsed_floor. cbn [JS.of_Z JS.max JS.min JS.leb]. change (inject_Z 0) with 0%Q.
  assert (H : (inject_Z ((now - start) / 1000) <= inject_Z ((now' - start) / 1000))%Q).
  { rewrite <- Zle_Qle. apply Z.div_le_mono; lia. }
  apply Qle_bool_iff.
  destruct (Qle_bool_cases 0 (inject_Z ((now - start) / 1000))) as [[-> H1]|[-> H1]];
    destruct (Qle_bool_cases 0 (inject_Z ((now' - start) / 1000))) as [[-> H2]|[-> H2]];
    repeat match goal with |- context [Qle_bool t ?x] =>
      destruct (Qle_bool_cases t x) as [[-> ?]|[-> ?]] end;
    lra.
Qed.

Lemma elapsedSeconds_monotone_witness :
  JS.leb (elapsedSeconds 4000 sampleExam) (elapsedSeconds 9000 sampleExam) = true.
Proof. apply (elapsedSeconds_monotone sampleExam 60 4000 9000 eq_refl eq_refl). lia. Defined.

(** ** Setup and reset *)

(** [resetAll] keeps what was typed into the setup form, clears the tick
    stamp, and resetting twice is resetting once; after a finished exam the
    next exam can be started at once: [onStart] raises no alert and begins a
    countdown from 10. *)
Theorem resetAll_fresh (s : State) :
  resetAll (resetAll s) = resetAll s /\
  numQuestions (resetAll s) = numQuestions s /\
  totalMinutes (resetAll s) = totalMinutes s /\
  studentName (resetAll s) = studentName s /\
  lastTick (resetAll s) = None /\
  (reachable s -> phase s = Finished ->
     fst (onStart (resetAll s)) = None /\
     phase (snd (onStart (resetAll s))) = Countdown /\
     countdown (snd (onStart (resetAll s))) = 10%Z).
Proof.
  repeat (split; [reflexivity|]).
  intros Hr Hp. destruct (inv_valid s (reachable_Inv s Hr)) as [Hn Hm]; [congruence|].
  rewrite (onStart_valid (resetAll s) Hn Hm). repeat split.
Qed.

Lemma resetAll_fresh_witness :
  fst (onStart (resetAll (finishExam 5000 sampleExam))) = None /\
  phase (snd (onStart (resetAll (finishExam 5000 sampleExam)))) = Countdown /\
  countdown (snd (onStart (resetAll (finishExam 5000 sampleExam)))) = 10%Z.
Proof.
  apply (proj2 (proj2 (proj2 (proj2 (proj2 (resetAll_fresh (finishExam 5000 sampleExam))))))).
  - apply (reach_step sampleExam (EvFinish 5000)); [exact sampleExam_reachable | split; reflexivity].
  - reflexivity.
Defined.

(** Changing the number of questions on the setup form, to a million at
    most (far below the 2^32 from which the engine refuses to build the
    array), rebuilds both arrays with one zero counter and one cleared flag
    per question; an input that is not a number, zero or negative leaves them
    empty. *)
Theorem setNumQuestions_resizes (s : State) (v : option Z) :
  reachable s -> phase s = Setup ->
  match v with Some z => (z <= 1000000)%Z | None => True end ->
  numQuestions (apply (EvSetNumQuestions v) s) = parseIntResult v /\
  questionTotals (apply (EvSetNumQuestions v) s)
  = replicate (match v with Some z => Z.to_nat z | None => 0%nat end) 0%Z /\
  visited (apply (EvSetNumQuestions v) s)
  = replicate (match v with Some z => Z.to_nat z | None => 0%nat end) false.
Proof.
  intros Hr Hp _.
  assert (Hstep : step s (EvSetNumQuestions v) (apply (EvSetNumQuestions v) s)).
  { split; [|reflexivity]. cbn. now rewrite Hp. }
  pose proof (Inv_step _ _ _ (reachable_Inv s Hr) Hstep) as HI.
  assert (Hn : numQuestions (apply (EvSetNumQuestions v) s) = parseIntResult v).
  { cbn [apply]. destruct (JS.sameValue _ _); reflexivity. }
  assert (Hp' : phase (apply (EvSetNumQuestions v) s) = Setup).
  { cbn [apply]. destruct (JS.sameValue _ _); exact Hp. }
  destruct (inv_before_exam _ HI (or_introl Hp')) as (_ & _ & _ & Ht & Hv).
  rewrite Ht, Hv, Hn. unfold arrayFrom.
  assert (HL : JS.toLength (parseIntResult v)
               = match v with Some z => Z.to_nat z | None => 0%nat end).
  { destruct v as [z|]; [|reflexivity]. unfold parseIntResult, JS.of_Z, JS.toLength.
    now rewrite Qfloor_Z. }
  rewrite HL. repeat split.
Qed.

Lemma setNumQuestions_resizes_witness :
  questionTotals (apply (EvSetNumQuestions (Some (-4)%Z)) mounted) = [] /\
  questionTotals (apply (EvSetNumQuestions None) mounted) = [] /\
  questionTotals (apply (EvSetNumQuestions (Some 2%Z)) mounted) = [0; 0]%Z.
Proof.
  split; [|split].
  - apply (setNumQuestions_resizes mounted (Some (-4)%Z) reach_mounted eq_refl). lia.
  - apply (setNumQuestions_resizes mounted None reach_mounted eq_refl). exact I.
  - apply (setNumQuestions_resizes mounted (Some 2%Z) reach_mounted eq_refl). lia.
Defined.

(** The bar of the countdown screen grows by ten percent a tick: with the
    counter between 0 and 10, where every reachable countdown keeps it, its
    width is 10 times what was counted down, between 0 and 100. *)
Theorem countdownWidth_percent (c : Z) :
  (0 <= c <= 10)%Z ->
  (exists w : Q, countdownWidth c = Num w /\ (w == inject_Z (10 * (10 - c)))%Q /\
                 (0 <= w)%Q /\ (w <= 100)%Q) /\
  (forall s, reachable s -> phase s = Countdown -> (0 <= countdown s <= 10)%Z).
Proof.
  intros Hc. split.
  - unfold countdownWidth. cbn [JS.sub JS.of_Z]. unfold JS.div.
    change (Qeq_bool (inject_Z 10) 0) with false. cbv iota. cbn [JS.mul].
    eexists. split; [reflexivity|].
    assert (E : ((inject_Z 10 - inject_Z c) / inject_Z 10 * inject_Z 100
                 == inject_Z (10 * (10 - c)))%Q).
    { rewrite inject_Z_mult. unfold Z.sub. rewrite inject_Z_plus, inject_Z_opp.
      change (inject_Z 10) with 10%Q. change (inject_Z 100) with 100%Q. field. }
    split; [exact E|]. rewrite E. change 0%Q with (inject_Z 0). change 100%Q with (inject_Z 100).
    rewrite <- !Zle_Qle. lia.
  - intros s Hr Hp. exact (inv_countdown s (reachable_Inv s Hr) Hp).
Qed.

Lemma countdownWidth_percent_witness :
  exists w : Q, countdownWidth 7 = Num w /\ (w == inject_Z (10 * (10 - 7)))%Q /\
                (0 <= w)%Q /\ (w <= 100)%Q.
Proof. apply (countdownWidth_percent 7). lia. Defined.

(** ** Guards of the warning level *)

Lemma warnLevel_no_seconds (aq : option Z) (totals : list Z) (avg : number) :
  activeSec aq totals = JS.of_Z 0 -> warnLevel aq totals avg = None.
Proof.
  intros H. unfold warnLevel, activeRatio. rewrite H.
  destruct (JS.gtb avg (JS.of_Z 0)) eqn:E; [|reflexivity].
  destruct avg as [a|]; [|discriminate]. cbn [JS.gtb JS.ltb JS.of_Z] in E.
  apply negb_true_iff in E. change (inject_Z 0) with 0%Q in E.
  assert (Ha : (0 < a)%Q).
  { destruct (Qle_bool_cases a 0) as [[E' _]|[_ H']]; [congruence | exact H']. }
  unfold JS.div, JS.of_Z. rewrite Qeq_bool_false by (intros E'; rewrite E' in Ha; discriminate).
  cbn [JS.geb JS.leb].
  assert (Hz : (inject_Z 0 / a == 0)%Q) by (unfold Qdiv; now rewrite Qmult_0_l).
  rewrite !Qle_bool_false; [reflexivity| |]; rewrite Hz; reflexivity.
Qed.

(** No warning is shown without an active question, for an active question
    without a counter, or when the average per question is not a positive
    number: the ratio is then taken to be 0 and nothing is divided. *)
Theorem warnLevel_guards :
  (forall totals avg, warnLevel None totals avg = None) /\
  (forall q totals avg, index totals (q - 1) = None -> warnLevel (Some q) totals avg = None) /\
  (forall aq totals, warnLevel aq totals NaN = None) /\
  (forall aq totals (a : Q), (a <= 0)%Q -> warnLevel aq totals (Num a) = None).
Proof.
  split; [|split; [|split]].
  - intros totals avg. now apply warnLevel_no_seconds.
  - intros q totals avg H. apply warnLevel_no_seconds. unfold activeSec. now rewrite H.
  - reflexivity.
  - intros aq totals a Ha. unfold warnLevel, activeRatio. cbn [JS.gtb JS.ltb JS.of_Z].
    change (inject_Z 0) with 0%Q. now rewrite (Qle_bool_true _ _ Ha).
Qed.

Lemma warnLevel_guards_witness :
  warnLevel (Some 9%Z) [0; 2; 0]%Z (JS.of_Z 19) = None /\
  warnLevel (Some 2%Z) [0; 500; 0]%Z (Num 0) = None.
Proof.
  destruct warnLevel_guards as (_ & H2 & _ & H4). split.
  - apply H2. reflexivity.
  - apply H4. discriminate.
Defined.

(** ** Reading the CSV file back *)

Lemma parseDecimal_string_of_Z (z : Z) : parseDecimal (JS.string_of_Z z) = Some z.
Proof.
  unfold parseDecimal, JS.string_of_Z.
  assert (H : exists d, NilZero.int_of_string (NilZero.string_of_int (Z.to_int z)) = Some d /\
                        Z.of_int d = Z.of_int (Z.to_int z)).
  { destruct (Z.to_int z) as [u|u] eqn:E; destruct u;
      try (eexists; split; [apply NilZero.isi; discriminate | reflexivity]).
    - exists (Decimal.Pos (Decimal.D0 Decimal.Nil)). split; [apply NilZero.isi_posnil | reflexivity].
    - exists (Decimal.Neg (Decimal.D0 Decimal.Nil)). split; [apply NilZero.isi_negnil | reflexivity]. }
  destruct H as (d & -> & Hd). cbn. now rewrite Hd, DecimalZ.of_to.
Qed.

Lemma string_of_uint_no_comma (d : Decimal.uint) :
  hasChar "," (NilEmpty.string_of_uint d) = false.
Proof. induction d as [|d IH|d IH|d IH|d IH|d IH|d IH|d IH|d IH|d IH|d IH]; cbn; auto. Qed.

Lemma string_of_Z_no_comma (z : Z) : hasChar "," (JS.string_of_Z z) = false.
Proof.
  unfold JS.string_of_Z, NilZero.string_of_int, NilZero.string_of_uint.
  destruct (Z.to_int z) as [d|d]; destruct d; cbn;
    rewrite ?string_of_uint_no_comma; reflexivity.
Qed.

Lemma parseRow_csvLine (i : nat) (sec : Z) :
  parseRow (csvLine i sec) = Some ((Z.of_nat i + 1)%Z, sec).
Proof.
  unfold parseRow, csvLine.
  change ("," ++ JS.string_of_Z sec) with (String "," (JS.string_of_Z sec)).
  rewrite (split_app "," _ _ (string_of_Z_no_comma _)).
  rewrite (split_none "," _ (string_of_Z_no_comma sec)).
  now rewrite !parseDecimal_string_of_Z.
Qed.

Lemma parseRows_imap (f : nat -> Z -> string) (g : nat -> Z -> Z * Z) (l : list Z) :
  (forall i x, parseRow (f i x) = Some (g i x)) ->
  parseRows (imap f l) = Some (imap g l).
Proof.
  revert f g. induction l as [|x l IH]; intros f g H; [reflexivity|].
  rewrite !imap_cons. cbn [parseRows]. rewrite H.
  rewrite (IH (f ∘ S) (g ∘ S)) by (intros i y; apply H). reflexivity.
Qed.

(** The exported file reads back: under its header, row i carries the number
    i of the question and the seconds counted on it, every row has exactly two
    fields, and nothing is lost or added. *)
Theorem exportCSV_roundtrip (totals : list Z) :
  parseCSV (csvText (csvRows totals))
  = Some (imap (fun i sec => ((Z.of_nat i + 1)%Z, sec)) totals) /\
  (forall i sec, totals !! i = Some sec ->
     JS.split "," (csvLine i sec) = [JS.string_of_Z (Z.of_nat i + 1); JS.string_of_Z sec]) /\
  (forall rows, parseCSV (csvText (csvRows totals)) = Some rows -> map snd rows = totals).
Proof.
  assert (Hs : JS.split EOL_char (csvText (csvRows totals))
               = "question_no,total_seconds" :: imap csvLine totals).
  { rewrite csvText_lines. apply split_join. constructor; [reflexivity|].
    apply Forall_forall. intros x Hx.
    apply elem_of_lookup_imap in Hx as (i & sec & -> & _). apply csvLine_no_EOL. }
  assert (Hp : parseCSV (csvText (csvRows totals))
               = Some (imap (fun i sec => ((Z.of_nat i + 1)%Z, sec)) totals)).
  { unfold parseCSV. rewrite Hs. cbn [String.eqb].
    change (String.eqb "question_no,total_seconds" "question_no,total_seconds") with true.
    cbv iota. apply parseRows_imap. intros i x. apply parseRow_csvLine. }
  split; [exact Hp|]. split.
  - intros i sec _. unfold csvLine.
    change ("," ++ JS.string_of_Z sec) with (String "," (JS.string_of_Z sec)).
    rewrite (split_app "," _ _ (string_of_Z_no_comma _)).
    now rewrite (split_none "," _ (string_of_Z_no_comma sec)).
  - intros rows H. rewrite Hp in H. injection H as <-.
    rewrite map_imap. cbn [snd]. apply imap_keep.
Qed.

Lemma exportCSV_roundtrip_witness :
  JS.split "," (csvLine 1 2) = ["2"; "2"] /\
  parseCSV (csvText (csvRows [0; 2; 0]%Z)) = Some [(1, 0); (2, 2); (3, 0)]%Z.
Proof.
  destruct (exportCSV_roundtrip [0; 2; 0]%Z) as (H1 & H2 & _). split.
  - exact (H2 1%nat 2%Z eq_refl).
  - exact H1.
Defined.

(** ** Exact arithmetic against binary64 *)

Lemma holdsFrom_spec (check : Z -> bool) (n : nat) (z x : Z) :
  holdsFrom check n z = true -> (z <= x < z + Z.of_nat n)%Z -> check x = true.
Proof.
  revert z. induction n as [|n IH]; intros z H Hx; [lia|].
  cbn [holdsFrom] in H. apply andb_prop in H as [H0 H1].
  destruct (Z.eq_dec x z) as [->|Hne]; [exact H0|].
  apply (IH (z + 1)%Z H1). lia.
Qed.

Lemma holdsFrom_range (check : Z -> bool) (n z x : Z) :
  holdsFrom check (Z.to_nat n) z = true -> (z <= x < z + n)%Z -> check x = true.
Proof. intros H Hx. apply (holdsFrom_spec check (Z.to_nat n) z x H). lia. Qed.

Lemma agreeAnswering_range : holdsFrom agreeAnswering (Z.to_nat 36001) 0 = true.
Proof. vm_compute. reflexivity. Qed.

Lemma agreeAverage_range :
  holdsFrom (fun n => holdsFrom (fun a => agreeAverage a n) (Z.to_nat 1501) 0) (Z.to_nat 40) 1 = true.
Proof. vm_compute. reflexivity. Qed.

Lemma agreeWarnLevel_range :
  holdsFrom (fun avg => holdsFrom (fun sec => agreeWarnLevel sec avg) (Z.to_nat 1501) 0) (Z.to_nat 40) 1 = true.
Proof. vm_compute. reflexivity. Qed.

(** On doubles, as the engine computes it, the answering share of every whole
    total from 0 to 36000 seconds is the one of the exact model: the rounding
    of the product by 0.95 never crosses an integer there. *)
Theorem binary64_answering_agrees (t : Z) :
  (0 <= t <= 36000)%Z ->
  exists k : Z,
    Binary64.answering t = Some k /\
    answering (splitAnsweringChecking (JS.of_Z t)) = JS.of_Z k.
Proof.
  intros Ht. pose proof (holdsFrom_range _ _ _ t agreeAnswering_range ltac:(lia)) as H.
  unfold agreeAnswering in H. destruct (Binary64.answering t) as [k|]; [|discriminate].
  exists k. split; [reflexivity|].
  cbn [splitAnsweringChecking answering JS.mul JS.floor JS.of_Z JS.sameValue] in *.
  apply Qeq_bool_iff in H. rewrite inject_Z_injective in H. now rewrite H.
Qed.

Lemma binary64_answering_agrees_witness :
  exists k : Z,
    Binary64.answering 6000 = Some k /\
    answering (splitAnsweringChecking (JS.of_Z 6000)) = JS.of_Z k.
Proof. apply (binary64_answering_agrees 6000). lia. Defined.

(** On doubles the average per question of every answering time from 0 to
    1500 seconds over 1 to 40 questions is the same number as in the exact
    model. *)
Theorem binary64_average_agrees (a n : Z) :
  (0 <= a <= 1500)%Z -> (1 <= n <= 40)%Z ->
  exists k : Z,
    Binary64.avgPerQuestion a n = Some k /\
    JS.sameValue (avgPerQuestionFromAnswering (JS.of_Z a) (JS.of_Z n)) (JS.of_Z k) = true.
Proof.
  intros Ha Hn. pose proof (holdsFrom_range _ _ _ n agreeAverage_range ltac:(lia)) as H.
  cbv beta in H. pose proof (holdsFrom_range _ _ _ a H ltac:(lia)) as H'.
  cbv beta in H'. unfold agreeAverage in H'.
  destruct (Binary64.avgPerQuestion a n) as [k|]; [|discriminate].
  exists k. split; [reflexivity | exact H'].
Qed.

Lemma binary64_average_agrees_witness :
  exists k : Z,
    Binary64.avgPerQuestion 95 10 = Some k /\
    JS.sameValue (avgPerQuestionFromAnswering (JS.of_Z 95) (JS.of_Z 10)) (JS.of_Z k) = true.
Proof. apply (binary64_average_agrees 95 10); lia. Defined.

Lemma eqTone_eq (a b : option Tone) : eqTone a b = true -> a = b.
Proof. destruct a as [[|]|], b as [[|]|]; cbn; congruence. Qed.

(** On doubles the warning level of every counter from 0 to 1500 seconds
    against every average from 1 to 40 seconds is the one of the exact model,
    the comparisons with 2.8 included. *)
Theorem binary64_warnLevel_agrees (sec avg : Z) :
  (0 <= sec <= 1500)%Z -> (1 <= avg <= 40)%Z ->
  Binary64.warnLevel sec avg = warnLevel (Some 1%Z) [sec] (JS.of_Z avg).
Proof.
  intros Hs Ha. pose proof (holdsFrom_range _ _ _ avg agreeWarnLevel_range ltac:(lia)) as H.
  cbv beta in H. pose proof (holdsFrom_range _ _ _ sec H ltac:(lia)) as H'.
  cbv beta in H'. now apply eqTone_eq.
Qed.

Lemma binary64_warnLevel_agrees_witness :
  Binary64.warnLevel 14 5 = warnLevel (Some 1%Z) [14]%Z (JS.of_Z 5).
Proof. apply (binary64_warnLevel_agrees 14 5); lia. Defined.

(** ** The greeting *)

(** The banner names the student after "Good luck" when a name was given, and
    it is the bare "Good luck! Ace this exam!" exactly when the name is empty. *)
Theorem buildGreeting_name (name : string) :
  (name <> "" -> buildGreeting name = "Good luck, " ++ name ++ "! Ace this exam!") /\
  (buildGreeting name = "Good luck! Ace this exam!" <-> name = "").
Proof.
  unfold buildGreeting. destruct name as [|c name]; cbn.
  - split; [congruence|]. split; reflexivity.
  - split; [reflexivity|]. split; [|discriminate].
    intros H. injection H as H. discriminate H.
Qed.

Lemma buildGreeting_name_witness :
  buildGreeting "Aanya" = "Good luck, Aanya! Ace this exam!".
Proof. apply (proj1 (buildGreeting_name "Aanya")). discriminate. Defined.

(** ** The helpers on doubles *)





Lemma agreeSplit_range : holdsFrom agreeSplit (Z.to_nat 7201) 0 = true.
Proof. vm_compute. reflexivity. Qed.

Lemma Qfloor_95_percent (n : Z) : Qfloor (inject_Z n * 0.95) = (n * 95 / 100)%Z.
Proof. unfold Qfloor. cbn. reflexivity. Qed.

Lemma agreeSplit_whole (n : Z) :
  (0 <= n <= 7200)%Z ->
  Binary64.isWhole
    (Binary64.answering64 (Binary64.splitAnsweringChecking (Binary64.ofInt n)))
    (Qfloor (inject_Z n * 0.95)) = true /\
  Binary64.isWhole
    (Binary64.checking64 (Binary64.splitAnsweringChecking (Binary64.ofInt n)))
    (n - Qfloor (inject_Z n * 0.95)) = true.
Proof.
  intros Hn. pose proof (holdsFrom_range _ _ _ n agreeSplit_range ltac:(lia)) as H.
  unfold agreeSplit in H. cbv zeta in H. now apply andb_prop in H.
Qed.




(** On doubles, for every whole total from 0 to 7200 seconds the two shares
    are whole numbers that add up to the total; neither is negative, the
    answering share is at most 95% and the checking share at least 5% of it. *)
Theorem splitAnsweringChecking_shares (n : Z) :
  (0 <= n <= 7200)%Z ->
  exists a c : Z,
    Binary64.isWhole
      (Binary64.answering64 (Binary64.splitAnsweringChecking (Binary64.ofInt n))) a = true /\
    Binary64.isWhole
      (Binary64.checking64 (Binary64.splitAnsweringChecking (Binary64.ofInt n))) c = true /\
    (a + c = n)%Z /\ (0 <= a)%Z /\ (20 * a <= 19 * n)%Z /\ (0 <= c)%Z /\ (n <= 20 * c)%Z.
Proof.
  intros Hn. destruct (agreeSplit_whole n Hn) as [Ha Hc].
  exists (Qfloor (inject_Z n * 0.95)), (n - Qfloor (inject_Z n * 0.95))%Z.
  split; [exact Ha|]. split; [exact Hc|].
  rewrite Qfloor_95_percent. Z.div_mod_to_equations. lia.
Qed.

Lemma splitAnsweringChecking_shares_witness :
  exists a c : Z,
    Binary64.isWhole
      (Binary64.answering64 (Binary64.splitAnsweringChecking (Binary64.ofInt 59))) a = true /\
    Binary64.isWhole
      (Binary64.checking64 (Binary64.splitAnsweringChecking (Binary64.ofInt 59))) c = true /\
    (a + c = 59)%Z /\ (0 <= a)%Z /\ (20 * a <= 19 * 59)%Z /\ (0 <= c)%Z /\ (59 <= 20 * c)%Z.
Proof. apply (splitAnsweringChecking_shares 59). lia. Defined.



Module Doubles.
Import PrimFloat.





End Doubles.
